(** * DreamCraft backend: the art generator and the product catalog

    A shallow embedding of [main.py]: the deterministic SVG placeholder
    generator ([_svg_placeholder], [generate_art]) and the two catalog
    handlers ([list_products], [create_product]), with the interpreter
    services they call (UTF-8, SHA-256, base64, [float], pydantic field
    validation) written out as functions. *)

From Stdlib Require Import String Ascii DecimalString Floats.
From Stdlib Require Import ZArith NArith Bool Lia List.
Import ListNotations.

#[local] Set Warnings "-register-all".
Local Open Scope N_scope.

(** Closed goals, possibly a conjunction of them, settled by evaluation. *)
Ltac split_conj := repeat match goal with |- _ /\ _ => split end.
Ltac evaluate := split_conj; vm_compute; reflexivity.

(** ** Python values shared by both components *)

(** A Python [str] is a sequence of code points; slicing and [len] count
    code points, not bytes. *)
Definition str := list N.

(** A [bytes] object: every element is below 256. *)
Definition bytes := list N.
Definition is_byte (b : N) : bool := b <? 256.

(** ASCII literal of the source, as a [str]. *)
Definition py (s : string) : str :=
  map N_of_ascii (list_ascii_of_string s).

(** Literal text of the SVG template.  The template has no apostrophe of
    its own, so the literal is written with ['] where the source has a
    double quote. *)
Definition lit (s : string) : str :=
  map (fun a => let n := N_of_ascii a in if n =? 39 then 34 else n)
      (list_ascii_of_string s).

Definition nl : str := [10].

(** An exception instance: its class name and the text [str(e)] returns.
    The instances are those of [Exception] and its subclasses, the ones an
    [except Exception] clause catches. *)
Inductive exn : Type :=
| Exn (cls : string) (msg : str).

Definition exn_str (e : exn) : str :=
  match e with Exn _ m => m end.

(** Outcome of a call: a returned value or a raised exception. *)
Inductive result (E A : Type) : Type :=
| Return (a : A)
| Raise (e : E).
Arguments Return {E A} a.
Arguments Raise {E A} e.

Definition bind {E A B} (r : result E A) (k : A -> result E B) : result E B :=
  match r with
  | Return a => k a
  | Raise e => Raise e
  end.

Notation "x <- r ;; k" := (bind r (fun x => k))
  (at level 61, r at next level, right associativity).

(** [str(n)] and the [{n}] field of an f-string for an [int]. *)
Definition str_of_int (z : Z) : str :=
  py (NilZero.string_of_int (Z.to_int z)).

(** Python slicing [s[:n]] and [s[i:j]] for non-negative bounds: out of
    range bounds are clamped, never an error. *)
Definition slice_to {A} (n : nat) (s : list A) : list A := firstn n s.
Definition slice {A} (i j : nat) (s : list A) : list A :=
  firstn (j - i) (skipn i s).

(** ** UTF-8 *)

Module Utf8.

Definition is_surrogate (c : N) : bool := (0xD800 <=? c) && (c <? 0xE000).

(** Code points UTF-8 can carry. *)
Definition is_scalar (c : N) : bool :=
  (c <? 0x110000) && negb (is_surrogate c).

Definition encode_char (c : N) : option bytes :=
  if c <? 0x80 then Some [c]
  else if c <? 0x800 then Some [0xC0 + c / 64; 0x80 + c mod 64]
  else if c <? 0x10000 then
    if is_surrogate c then None
    else Some [0xE0 + c / 4096; 0x80 + (c / 64) mod 64; 0x80 + c mod 64]
  else if c <? 0x110000 then
    Some [0xF0 + c / 262144; 0x80 + (c / 4096) mod 64;
          0x80 + (c / 64) mod 64; 0x80 + c mod 64]
  else None.

(** [s.encode()] and [s.encode("utf-8")]: strict, a lone surrogate raises. *)
Fixpoint encode (s : str) : result exn bytes :=
  match s with
  | [] => Return []
  | c :: s' =>
      match encode_char c with
      | None => Raise (Exn "UnicodeEncodeError" (py "surrogates not allowed"))
      | Some bs => bs' <- encode s' ;; Return (bs ++ bs')
      end
  end.

Definition is_cont (b : N) : bool := (0x80 <=? b) && (b <? 0xC0).

Definition decode_error : exn :=
  Exn "UnicodeDecodeError" (py "invalid utf-8").

(** [b.decode("utf-8")]: strict, rejects overlong forms, surrogates and
    values above U+10FFFF. *)
Fixpoint decode (bs : bytes) : result exn str :=
  match bs with
  | [] => Return []
  | b0 :: r0 =>
      if b0 <? 0x80 then s <- decode r0 ;; Return (b0 :: s)
      else if b0 <? 0xC0 then Raise decode_error
      else if b0 <? 0xE0 then
        match r0 with
        | b1 :: r1 =>
            let c := (b0 - 0xC0) * 64 + (b1 - 0x80) in
            if is_cont b1 && (0x80 <=? c)
            then s <- decode r1 ;; Return (c :: s)
            else Raise decode_error
        | _ => Raise decode_error
        end
      else if b0 <? 0xF0 then
        match r0 with
        | b1 :: b2 :: r2 =>
            let c := (b0 - 0xE0) * 4096 + (b1 - 0x80) * 64 + (b2 - 0x80) in
            if is_cont b1 && is_cont b2 && (0x800 <=? c)
               && negb (is_surrogate c)
            then s <- decode r2 ;; Return (c :: s)
            else Raise decode_error
        | _ => Raise decode_error
        end
      else if b0 <? 0xF8 then
        match r0 with
        | b1 :: b2 :: b3 :: r3 =>
            let c := (b0 - 0xF0) * 262144 + (b1 - 0x80) * 4096
                     + (b2 - 0x80) * 64 + (b3 - 0x80) in
            if is_cont b1 && is_cont b2 && is_cont b3
               && (0x10000 <=? c) && (c <? 0x110000)
            then s <- decode r3 ;; Return (c :: s)
            else Raise decode_error
        | _ => Raise decode_error
        end
      else Raise decode_error
  end.

End Utf8.

(** A string that [encode] accepts: no lone surrogate, nothing above
    U+10FFFF. *)
Definition encodable (s : str) : bool := forallb Utf8.is_scalar s.

(** ** SHA-256 ([hashlib.sha256(...).hexdigest()]) *)

Module Sha256.

Definition mask32 : N := 0xFFFFFFFF.
Definition add32 (a b : N) : N := (a + b) mod 0x100000000.
Definition not32 (a : N) : N := N.lxor a mask32.
Definition rotr (n a : N) : N :=
  N.lor (N.shiftr a n) (N.land (N.shiftl a (32 - n)) mask32).

Definition Ch (x y z : N) := N.lxor (N.land x y) (N.land (not32 x) z).
Definition Maj (x y z : N) :=
  N.lxor (N.lxor (N.land x y) (N.land x z)) (N.land y z).
Definition Sigma0 x := N.lxor (N.lxor (rotr 2 x) (rotr 13 x)) (rotr 22 x).
Definition Sigma1 x := N.lxor (N.lxor (rotr 6 x) (rotr 11 x)) (rotr 25 x).
Definition sigma0 x := N.lxor (N.lxor (rotr 7 x) (rotr 18 x)) (N.shiftr x 3).
Definition sigma1 x := N.lxor (N.lxor (rotr 17 x) (rotr 19 x)) (N.shiftr x 10).

(** The constants of the standard are defined from the first primes:
    the round constants are the first 32 bits of the fractional parts of
    the cube roots of the first sixty-four primes, the initial state
    those of the square roots of the first eight. *)
Definition is_prime (n : N) : bool :=
  (1 <? n)
  && forallb (fun d => negb (n mod d =? 0))
       (map N.of_nat (seq 2 (N.to_nat n - 2))).

Definition primes : list N :=
  Eval vm_compute in firstn 64 (filter is_prime (map N.of_nat (seq 2 320))).

(** Integer cube root, one bit at a time from bit [bits - 1] down. *)
Fixpoint cube_root (bits : nat) (x r : N) : N :=
  match bits with
  | O => r
  | S i =>
      let r' := r + 2 ^ N.of_nat i in
      cube_root i x (if r' * r' * r' <=? x then r' else r)
  end.

Definition frac32_cube_root (p : N) : N :=
  cube_root 40 (p * 2 ^ 96) 0 mod 2 ^ 32.

Definition frac32_square_root (p : N) : N :=
  N.sqrt (p * 2 ^ 64) mod 2 ^ 32.

Definition K : list N := Eval vm_compute in map frac32_cube_root primes.

(** The eight working words. *)
Record state : Type := mkState {
  h0 : N; h1 : N; h2 : N; h3 : N; h4 : N; h5 : N; h6 : N; h7 : N
}.

Definition init : state :=
  Eval vm_compute in
    match map frac32_square_root (firstn 8 primes) with
    | [a; b; c; d; e; f; g; h] => mkState a b c d e f g h
    | _ => mkState 0 0 0 0 0 0 0 0
    end.

(** Big-endian bytes of a number, [n] of them. *)
Fixpoint be_bytes (n : nat) (x : N) : bytes :=
  match n with
  | O => []
  | S n' => be_bytes n' (x / 256) ++ [x mod 256]
  end.

Definition pad (msg : bytes) : bytes :=
  let len := N.of_nat (length msg) in
  let zeros := N.to_nat ((119 - len mod 64) mod 64) in
  msg ++ [0x80] ++ repeat 0 zeros ++ be_bytes 8 (8 * len).

Fixpoint be_words (fuel : nat) (bs : bytes) : list N :=
  match fuel, bs with
  | S fuel', a :: b :: c :: d :: r =>
      (((a * 256 + b) * 256 + c) * 256 + d) :: be_words fuel' r
  | _, _ => []
  end.

(** Message schedule: the sixteen block words extended to sixty-four. *)
Fixpoint schedule (n : nat) (w : list N) : list N :=
  match n with
  | O => w
  | S n' =>
      let t := length w in
      let at_ i := nth (t - i) w 0 in
      schedule n'
        (w ++ [add32 (add32 (sigma1 (at_ 2%nat)) (at_ 7%nat))
                     (add32 (sigma0 (at_ 15%nat)) (at_ 16%nat))])
  end.

Definition round (s : state) (kw : N * N) : state :=
  let (k, w) := kw in
  let t1 := add32 (add32 (add32 (h7 s) (Sigma1 (h4 s)))
                         (add32 (Ch (h4 s) (h5 s) (h6 s)) k)) w in
  let t2 := add32 (Sigma0 (h0 s)) (Maj (h0 s) (h1 s) (h2 s)) in
  mkState (add32 t1 t2) (h0 s) (h1 s) (h2 s)
          (add32 (h3 s) t1) (h4 s) (h5 s) (h6 s).

Definition compress (s : state) (block : bytes) : state :=
  let w := schedule 48 (be_words 16 block) in
  let r := fold_left round (combine K w) s in
  mkState (add32 (h0 s) (h0 r)) (add32 (h1 s) (h1 r))
          (add32 (h2 s) (h2 r)) (add32 (h3 s) (h3 r))
          (add32 (h4 s) (h4 r)) (add32 (h5 s) (h5 r))
          (add32 (h6 s) (h6 r)) (add32 (h7 s) (h7 r)).

Fixpoint blocks (fuel : nat) (bs : bytes) : list bytes :=
  match fuel, bs with
  | S fuel', _ :: _ => firstn 64 bs :: blocks fuel' (skipn 64 bs)
  | _, _ => []
  end.

Definition digest (msg : bytes) : bytes :=
  let p := pad msg in
  let s := fold_left compress (blocks (length p) p) init in
  be_bytes 4 (h0 s) ++ be_bytes 4 (h1 s) ++ be_bytes 4 (h2 s)
  ++ be_bytes 4 (h3 s) ++ be_bytes 4 (h4 s) ++ be_bytes 4 (h5 s)
  ++ be_bytes 4 (h6 s) ++ be_bytes 4 (h7 s).

Definition hex_digit (d : N) : N := if d <? 10 then 48 + d else 87 + d.

Fixpoint hex (bs : bytes) : str :=
  match bs with
  | [] => []
  | b :: r => hex_digit (b / 16) :: hex_digit (b mod 16) :: hex r
  end.

Definition hexdigest (msg : bytes) : str := hex (digest msg).

(** A lower-case hexadecimal digit. *)
Definition is_hex_digit (c : N) : bool :=
  ((48 <=? c) && (c <=? 57)) || ((97 <=? c) && (c <=? 102)).

End Sha256.

(** ** Base64 ([base64.b64encode]) *)

Module Base64.

(** The standard alphabet [A-Za-z0-9+/], by index. *)
Definition alphabet (i : N) : N :=
  if i <? 26 then 65 + i
  else if i <? 52 then 71 + i
  else if i <? 62 then i - 4
  else if i =? 62 then 43
  else 47.

Definition pad_char : N := 61.

Fixpoint b64encode (bs : bytes) : bytes :=
  match bs with
  | [] => []
  | [a] =>
      [alphabet (a / 4); alphabet ((a mod 4) * 16); pad_char; pad_char]
  | [a; b] =>
      [alphabet (a / 4); alphabet ((a mod 4) * 16 + b / 16);
       alphabet ((b mod 16) * 4); pad_char]
  | a :: b :: c :: r =>
      alphabet (a / 4) :: alphabet ((a mod 4) * 16 + b / 16)
      :: alphabet ((b mod 16) * 4 + c / 64) :: alphabet (c mod 64)
      :: b64encode r
  end.

(** Index of a character in the alphabet. *)
Definition index (c : N) : option N :=
  if (65 <=? c) && (c <=? 90) then Some (c - 65)
  else if (97 <=? c) && (c <=? 122) then Some (c - 71)
  else if (48 <=? c) && (c <=? 57) then Some (c + 4)
  else if c =? 43 then Some 62
  else if c =? 47 then Some 63
  else None.

(** The reader's side: padded groups of four characters back to bytes. *)
Fixpoint b64decode (cs : bytes) : option bytes :=
  match cs with
  | [] => Some []
  | c1 :: c2 :: c3 :: c4 :: r =>
      match index c1, index c2 with
      | Some s1, Some s2 =>
          let a := s1 * 4 + s2 / 16 in
          if (c3 =? pad_char) && (c4 =? pad_char) then
            match r with [] => Some [a] | _ => None end
          else
            match index c3 with
            | Some s3 =>
                let b := (s2 mod 16) * 16 + s3 / 4 in
                if c4 =? pad_char then
                  match r with [] => Some [a; b] | _ => None end
                else
                  match index c4, b64decode r with
                  | Some s4, Some bs => Some (a :: b :: (s3 mod 4) * 64 + s4 :: bs)
                  | _, _ => None
                  end
            | None => None
            end
      | _, _ => None
      end
  | _ => None
  end.

End Base64.

(** ** The art generator *)

Fixpoint str_eqb (a b : str) : bool :=
  match a, b with
  | [], [] => true
  | x :: a', y :: b' => (x =? y) && str_eqb a' b'
  | _, _ => false
  end.

(** [x in (a, b, ...)] on strings. *)
Definition str_in (x : str) (xs : list str) : bool :=
  existsb (str_eqb x) xs.

(** [x or d] for an optional string: [None] and the empty string are falsy. *)
Definition or_default (x : option str) (d : str) : str :=
  match x with
  | Some (c :: s) => c :: s
  | _ => d
  end.

(** Canvas size chosen from the aspect string (source lines 136-140). *)
Definition canvas (aspect : str) : Z * Z :=
  if str_in aspect [py "16:9"; py "16-9"] then (1280, 720)%Z
  else if str_in aspect [py "3:4"; py "3-4"] then (960, 1280)%Z
  else (1024, 1024)%Z.

(** The three gradient stops cut from the seed (source lines 131-133). *)
Definition stop_colors (seed : str) : str * str * str :=
  (py "#" ++ slice_to 6 seed,
   py "#" ++ slice 6 12 seed,
   py "#" ++ slice 12 18 seed).

(** The f-string of source lines 142-161; [text] is the value of
    [prompt[:80]]. *)
Definition svg_markup (w h : Z) (c1 c2 c3 text style : str) : str :=
  lit "<svg xmlns='http://www.w3.org/2000/svg' width='" ++ str_of_int w
  ++ lit "' height='" ++ str_of_int h ++ lit "'>" ++ nl
  ++ lit "    <defs>" ++ nl
  ++ lit "      <radialGradient id='g' cx='50%' cy='50%' r='70%'>" ++ nl
  ++ lit "        <stop offset='0%' stop-color='" ++ c1 ++ lit "'/>" ++ nl
  ++ lit "        <stop offset='50%' stop-color='" ++ c2 ++ lit "'/>" ++ nl
  ++ lit "        <stop offset='100%' stop-color='" ++ c3 ++ lit "'/>" ++ nl
  ++ lit "      </radialGradient>" ++ nl
  ++ lit "      <filter id='f' x='-20%' y='-20%' width='140%' height='140%'>" ++ nl
  ++ lit "        <feTurbulence type='fractalNoise' baseFrequency='0.012' numOctaves='3'/>" ++ nl
  ++ lit "        <feColorMatrix type='saturate' values='1.2'/>" ++ nl
  ++ lit "        <feBlend mode='overlay'/>" ++ nl
  ++ lit "      </filter>" ++ nl
  ++ lit "    </defs>" ++ nl
  ++ lit "    <rect width='100%' height='100%' fill='url(#g)'/>" ++ nl
  ++ lit "    <rect width='100%' height='100%' filter='url(#f)' opacity='0.35'/>" ++ nl
  ++ lit "    <g font-family='Inter,Arial' font-size='28' fill='white' opacity='0.9'>" ++ nl
  ++ lit "      <text x='50%' y='50%' text-anchor='middle'>" ++ text ++ lit "</text>" ++ nl
  ++ lit "      <text x='50%' y='55%' text-anchor='middle' opacity='0.7'>style: "
  ++ style ++ lit "</text>" ++ nl
  ++ lit "    </g>" ++ nl
  ++ lit "  </svg>".

Definition data_uri_prefix : str := py "data:image/svg+xml;base64,".

Definition _svg_placeholder (prompt style aspect : str) : result exn str :=
  b <- Utf8.encode (prompt ++ style ++ aspect) ;;
  let seed := Sha256.hexdigest b in
  let '(c1, c2, c3) := stop_colors seed in
  let '(w, h) := canvas aspect in
  let svg := svg_markup w h c1 c2 c3 (slice_to 80 prompt) style in
  sb <- Utf8.encode svg ;;
  data <- Utf8.decode (Base64.b64encode sb) ;;
  Return (data_uri_prefix ++ data).

(** The markup composed for a triple once the seed is known (source lines
    131-161). *)
Definition composed_svg (prompt style aspect seed : str) : str :=
  let '(c1, c2, c3) := stop_colors seed in
  let '(w, h) := canvas aspect in
  svg_markup w h c1 c2 c3 (slice_to 80 prompt) style.

(** The six digits [i .. i+5] of a digest, read one by one. *)
Definition window (i : nat) (digest : str) : str :=
  map (fun k => nth k digest 0) (seq i 6).

(** [needle] occurs in [hay]; [hay] begins with [needle]. *)
Definition contains (needle hay : str) : Prop :=
  exists pre post, hay = pre ++ needle ++ post.
Definition starts (needle hay : str) : Prop :=
  exists post, hay = needle ++ post.

(** What the reader of a data URI recovers: the payload after the prefix,
    base64-decoded and read as UTF-8, is the markup [svg]. *)
Definition decodes_to (image svg : str) : Prop :=
  exists payload sb,
    image = data_uri_prefix ++ payload
    /\ payload = Base64.b64encode sb
    /\ Utf8.encode svg = Return sb
    /\ Base64.b64decode payload = Some sb
    /\ Utf8.decode sb = Return svg.

Module ArtRequest.
Record t : Type := make {
  prompt : str;
  style : option str;
  aspect : option str
}.
End ArtRequest.

Module ArtResponse.
Record t : Type := make {
  image : str;
  prompt : str;
  style : str;
  provider : str
}.
End ArtResponse.

Definition generate_art (req : ArtRequest.t) : result exn ArtResponse.t :=
  let provider := py "placeholder" in
  image_url <- _svg_placeholder (ArtRequest.prompt req)
                 (or_default (ArtRequest.style req) (py "dreamy"))
                 (or_default (ArtRequest.aspect req) (py "1:1")) ;;
  Return (ArtResponse.make image_url (ArtRequest.prompt req)
            (or_default (ArtRequest.style req) (py "dreamy")) provider).

(** ** Documents of the store and the builtins applied to them *)

(** A [datetime.datetime]: broken-down time and an optional UTC offset in
    minutes. *)
Record datetime : Type := mkDatetime {
  dt_year : Z; dt_month : Z; dt_day : Z;
  dt_hour : Z; dt_minute : Z; dt_second : Z; dt_microsecond : Z;
  dt_utcoffset : option Z
}.

(** The values a document of the store holds.  A dictionary keeps its
    insertion order (iterating it yields the keys in that order), so it
    is an association list; a cursor yields its items and may then raise
    instead of stopping. *)
Inductive pyvalue : Type :=
| PyNone
| PyBool (b : bool)
| PyInt (z : Z)
| PyFloat (f : float)
| PyStr (s : str)
| PyDatetime (d : datetime)
| PyObjectId (hex : str)
| PyList (items : list pyvalue)
| PyDict (items : list (str * pyvalue))
| PyCursor (items : list pyvalue) (fail : option exn).

(** What the interpreter and pydantic supply beyond this file: the Unicode
    database consulted by [float] on non-ASCII text, [str] of the values
    whose text is a [repr], and pydantic's lax parsing of a [datetime]
    from a number or a string. *)
Record Runtime : Type := mkRuntime {
  unicode_isspace : N -> bool;
  unicode_todecimal : N -> option N;
  repr_text : pyvalue -> str;
  lax_datetime : pyvalue -> option datetime
}.

Module PyFloat.

Local Open Scope Z_scope.

(** Nearest double (ties to even) of [(-1)^neg * m * 10^e10]. *)
Definition of_decimal (neg : bool) (m : N) (e10 : Z) : float :=
  match m with
  | N0 => if neg then neg_zero else zero
  | Npos p =>
      if 0 <=? e10 then
        SF2Prim (binary_round prec emax neg (p * Z.to_pos (10 ^ e10)) 0)
      else
        let d := 10 ^ (- e10) in
        let s := 64 + Z.log2 d in
        let n := Z.shiftl (Zpos p) s in
        let q := n / d in
        let r := n mod d in
        let lx := if r =? 0 then loc_Exact
                  else loc_Inexact (Z.compare (2 * r) d) in
        SF2Prim (binary_round_aux prec emax neg q (- s) lx)
  end.

(** [float(n)] for an [int]: the nearest double, [OverflowError] beyond
    the range. *)
Definition of_int (z : Z) : result exn float :=
  let f := of_decimal (z <? 0) (Z.abs_N z) 0 in
  if is_infinity f
  then Raise (Exn "OverflowError" (py "int too large to convert to float"))
  else Return f.

Local Open Scope N_scope.

Definition is_digit (c : N) : bool := (48 <=? c) && (c <=? 57).
Definition is_space (c : N) : bool :=
  ((9 <=? c) && (c <=? 13)) || (c =? 32).
Definition lower (c : N) : N :=
  if (65 <=? c) && (c <=? 90) then c + 32 else c.

(** Non-ASCII text is first brought to ASCII: spaces become a blank,
    decimal digits their ASCII digit, and the first other character ends
    the text with a question mark. *)
Fixpoint transform (rt : Runtime) (s : str) : str :=
  match s with
  | [] => []
  | c :: r =>
      if c <? 127 then c :: transform rt r
      else if unicode_isspace rt c then 32 :: transform rt r
      else match unicode_todecimal rt c with
           | Some d => (48 + d) :: transform rt r
           | None => [63]
           end
  end.

Definition to_ascii (rt : Runtime) (s : str) : str :=
  if forallb (fun c => c <? 128) s then s else transform rt s.

(** Underscores are dropped when each stands between two digits; any
    other underscore makes the text invalid. *)
Fixpoint strip_underscores (prev : N) (s : str) : option str :=
  match s with
  | [] => if prev =? 95 then None else Some []
  | c :: r =>
      if c =? 95 then
        if is_digit prev then strip_underscores c r else None
      else if (prev =? 95) && negb (is_digit c) then None
      else option_map (cons c) (strip_underscores c r)
  end.

Fixpoint lstrip (s : str) : str :=
  match s with
  | c :: r => if is_space c then lstrip r else s
  | [] => []
  end.

Definition strip (s : str) : str := rev (lstrip (rev (lstrip s))).

(** A run of digits: its value, its length and what follows. *)
Fixpoint digits (s : str) (acc : N) (n : Z) : N * Z * str :=
  match s with
  | c :: r => if is_digit c then digits r (10 * acc + (c - 48)) (n + 1)%Z
              else (acc, n, s)
  | [] => (acc, n, [])
  end.

Definition sign (s : str) : bool * str :=
  match s with
  | 45 :: r => (true, r)
  | 43 :: r => (false, r)
  | _ => (false, s)
  end.

(** The exponent part; when no digit follows the [e] nothing is
    consumed. *)
Definition exponent (s : str) : Z * str :=
  match s with
  | c :: r =>
      if lower c =? 101 then
        let '(neg, r1) := sign r in
        let '(v, n, r2) := digits r1 0 0%Z in
        if (n =? 0)%Z then (0%Z, s)
        else ((if neg then - Z.of_N v else Z.of_N v)%Z, r2)
      else (0%Z, s)
  | [] => (0%Z, [])
  end.

(** [inf], [infinity] and [nan], in any case. *)
Definition special (neg : bool) (s : str) : option float :=
  let l := map lower s in
  if str_eqb l (py "inf") || str_eqb l (py "infinity")
  then Some (if neg then neg_infinity else infinity)
  else if str_eqb l (py "nan") then Some nan
  else None.

(** A whole decimal literal with optional sign, fraction and exponent. *)
Definition number (s : str) : option float :=
  let '(neg, s0) := sign s in
  match special neg s0 with
  | Some f => Some f
  | None =>
      let '(ip, n1, r1) := digits s0 0 0%Z in
      let '(m, n2, r2) :=
        match r1 with
        | 46 :: r => digits r ip 0%Z
        | _ => (ip, 0%Z, r1)
        end in
      if (n1 + n2 =? 0)%Z then None
      else
        match exponent r2 with
        | (e, []) => Some (of_decimal neg m (e - n2))
        | _ => None
        end
  end.

Definition of_str (rt : Runtime) (s : str) : result exn float :=
  let a := to_ascii rt s in
  let invalid :=
    Raise (Exn "ValueError" (py "could not convert string to float")) in
  match (if existsb (N.eqb 95) a then strip_underscores 0 a else Some a) with
  | None => invalid
  | Some b =>
      match number (strip b) with
      | Some f => Return f
      | None => invalid
      end
  end.

End PyFloat.

(** The builtin [float(v)]. *)
Definition py_float (rt : Runtime) (v : pyvalue) : result exn float :=
  match v with
  | PyFloat f => Return f
  | PyInt z => PyFloat.of_int z
  | PyBool b => Return (if b then one else zero)
  | PyStr s => PyFloat.of_str rt s
  | _ => Raise (Exn "TypeError"
                  (py "float() argument must be a string or a real number"))
  end.

(** The builtin [str(v)]. *)
Definition py_str (rt : Runtime) (v : pyvalue) : str :=
  match v with
  | PyNone => py "None"
  | PyBool b => if b then py "True" else py "False"
  | PyInt z => str_of_int z
  | PyStr s => s
  | PyObjectId h => h
  | _ => repr_text rt v
  end.

(** A runtime whose Unicode database knows no space and no digit outside
    ASCII. *)
Definition ascii_runtime : Runtime :=
  mkRuntime (fun _ => false) (fun _ => None) (fun _ => []) (fun _ => None).

Definition raises {E A} (r : result E A) : bool :=
  match r with Raise _ => true | Return _ => false end.

(** ** The catalog *)

Fixpoint lookup (key : str) (items : list (str * pyvalue)) : option pyvalue :=
  match items with
  | [] => None
  | (k, v) :: r => if str_eqb key k then Some v else lookup key r
  end.

Definition field_or (items : list (str * pyvalue)) (key : str)
  (default : pyvalue) : pyvalue :=
  match lookup key items with Some v => v | None => default end.

(** [d.get(key, default)]; only a dictionary has the method. *)
Definition get (d : pyvalue) (key : str) (default : pyvalue)
  : result exn pyvalue :=
  match d with
  | PyDict items => Return (field_or items key default)
  | _ => Raise (Exn "AttributeError" (py "object has no attribute 'get'"))
  end.

(** What [for d in docs] walks through: the items, and the exception that
    ends the walk if there is one. *)
Definition iterate (docs : pyvalue)
  : result exn (list pyvalue * option exn) :=
  match docs with
  | PyList items => Return (items, None)
  | PyCursor items fail => Return (items, fail)
  | PyDict items => Return (map (fun kv => PyStr (fst kv)) items, None)
  | PyStr s => Return (map (fun c => PyStr [c]) s, None)
  | _ => Raise (Exn "TypeError" (py "object is not iterable"))
  end.

(** Pydantic's field validators, in its default (lax) mode. *)
Module Pydantic.

Definition error : exn := Exn "ValidationError" (py "validation error").

(** A field annotated [str]. *)
Definition string (v : pyvalue) : result exn str :=
  match v with
  | PyStr s => Return s
  | _ => Raise error
  end.

(** A field annotated [Optional[str]]. *)
Definition optional_string (v : pyvalue) : result exn (option str) :=
  match v with
  | PyNone => Return None
  | PyStr s => Return (Some s)
  | _ => Raise error
  end.

(** A field annotated [float] with [ge=0]. *)
Definition float_ge0 (f : float) : result exn float :=
  if PrimFloat.ltb f zero then Raise error else Return f.

(** A field annotated [Optional[datetime]]. *)
Definition optional_datetime (rt : Runtime) (v : pyvalue)
  : result exn (option datetime) :=
  match v with
  | PyNone => Return None
  | PyDatetime d => Return (Some d)
  | _ => match lax_datetime rt v with
         | Some d => Return (Some d)
         | None => Raise error
         end
  end.

End Pydantic.

Module ProductIn.
Record t : Type := make {
  title : str;
  description : option str;
  price : float;
  category : str;
  image : option str
}.
End ProductIn.

Module ProductOut.
Record t : Type := make {
  title : str;
  description : option str;
  price : float;
  category : str;
  image : option str;
  id : option str;
  created_at : option datetime
}.
End ProductOut.

(** The [database] module, which the handlers import and the repository
    does not contain: its two functions are parameters, each called with
    the collection name and a dictionary.  [create_document] returns the
    new identifier as text, as the handler's [response_model=str]
    declares. *)
Record database : Type := mkDatabase {
  get_documents : str -> pyvalue -> result exn pyvalue;
  create_document : str -> pyvalue -> result exn str
}.

(** What [from database import ...] finds: the module, or the exception
    the import raises. *)
Definition environment : Type := result exn database.

(** A failed request as FastAPI reports it. *)
Module HTTPException.
Record t : Type := make {
  status_code : Z;
  detail : str
}.
End HTTPException.

Definition opt_value (o : option str) : pyvalue :=
  match o with Some s => PyStr s | None => PyNone end.

(** [product.model_dump()]. *)
Definition model_dump (p : ProductIn.t) : pyvalue :=
  PyDict [(py "title", PyStr (ProductIn.title p));
          (py "description", opt_value (ProductIn.description p));
          (py "price", PyFloat (ProductIn.price p));
          (py "category", PyStr (ProductIn.category p));
          (py "image", opt_value (ProductIn.image p))].

Section Catalog.

Variable rt : Runtime.

(** The call [ProductOut(id=..., title=..., ...)] of source lines 99-107:
    the arguments are evaluated in order, then the model validates its
    fields. *)
Definition product_out (d : pyvalue) : result exn ProductOut.t :=
  a_id <- get d (py "_id") PyNone ;;
  let a_id := py_str rt a_id in
  a_title <- get d (py "title") PyNone ;;
  a_description <- get d (py "description") PyNone ;;
  a_price <- get d (py "price") (PyInt 0) ;;
  a_price <- py_float rt a_price ;;
  a_category <- get d (py "category") (PyStr (py "craft")) ;;
  a_image <- get d (py "image") PyNone ;;
  a_created_at <- get d (py "created_at") PyNone ;;
  title <- Pydantic.string a_title ;;
  description <- Pydantic.optional_string a_description ;;
  price <- Pydantic.float_ge0 a_price ;;
  category <- Pydantic.string a_category ;;
  image <- Pydantic.optional_string a_image ;;
  created_at <- Pydantic.optional_datetime rt a_created_at ;;
  Return (ProductOut.make title description price category image
            (Some a_id) created_at).

(** The loop of source lines 97-108. *)
Fixpoint collect (items : list pyvalue) (fail : option exn)
  (res : list ProductOut.t) : result exn (list ProductOut.t) :=
  match items with
  | [] => match fail with
          | None => Return res
          | Some e => Raise e
          end
  | d :: items' =>
      p <- product_out d ;;
      collect items' fail (res ++ [p])
  end.

(** The body of the [try] of [list_products]. *)
Definition list_products_try (env : environment)
  : result exn (list ProductOut.t) :=
  db <- env ;;
  docs <- get_documents db (py "product") (PyDict []) ;;
  walk <- iterate docs ;;
  collect (fst walk) (snd walk) [].

Definition list_products (env : environment)
  : result exn (list ProductOut.t) :=
  match list_products_try env with
  | Return res => Return res
  | Raise _ => Return []
  end.

(** The body of the [try] of [create_product]. *)
Definition create_product_try (env : environment) (product : ProductIn.t)
  : result exn str :=
  db <- env ;;
  let product_dict := model_dump product in
  new_id <- create_document db (py "product") product_dict ;;
  Return new_id.

Definition create_product (env : environment) (product : ProductIn.t)
  : result HTTPException.t str :=
  match create_product_try env product with
  | Return new_id => Return new_id
  | Raise e =>
      Raise (HTTPException.make 500
               (py "Database not available: " ++ exn_str e))
  end.

End Catalog.

(** The status text of the diagnostic probe [test_database] when the
    store cannot be imported (source line 84): the message is cut at 80
    characters. *)
Definition probe_error_text (e : exn) : str :=
  [0x274C] ++ py " Error: " ++ slice_to 80 (exn_str e).

(** How a document shows in the product built from it: the category is
    "craft" when the document has none, the price is [0.0] when the
    document has none and [float] of the stored price otherwise. *)
Definition surfaced (rt : Runtime) (d : pyvalue) (p : ProductOut.t) : Prop :=
  exists items,
    d = PyDict items
    /\ (lookup (py "category") items = None
        -> ProductOut.category p = py "craft")
    /\ (lookup (py "price") items = None -> ProductOut.price p = zero)
    /\ (forall v, lookup (py "price") items = Some v
                  -> py_float rt v = Return (ProductOut.price p)).

(** ** Stores used as concrete inputs *)

(** A store that answers every query with the same documents and assigns
    the same identifier to every created document. *)
Definition store_with (docs : pyvalue) : environment :=
  Return (mkDatabase (fun _ _ => Return docs)
            (fun _ _ => Return (py "65f1c0ffee0000000000beef"))).

(** A store whose every call raises [e]. *)
Definition store_raising (e : exn) : environment :=
  Return (mkDatabase (fun _ _ => Raise e) (fun _ _ => Raise e)).

(** The answer of a store to the query [list_products] makes. *)
Definition get_documents_of (env : environment) : result exn pyvalue :=
  db <- env ;; get_documents db (py "product") (PyDict []).

Definition mug : pyvalue :=
  PyDict [(py "_id", PyObjectId (py "65f1c0ffee0000000000beef"));
          (py "title", PyStr (py "Mug"));
          (py "price", PyStr (py "12"))].

Definition pot : pyvalue :=
  PyDict [(py "title", PyStr (py "Pot")); (py "category", PyStr (py "clay"))].

(** A document whose price is text that is not a number. *)
Definition vase : pyvalue :=
  PyDict [(py "title", PyStr (py "Vase"));
          (py "price", PyStr (py "twelve"));
          (py "category", PyStr (py "clay"))].

(** A document without a title. *)
Definition untitled : pyvalue :=
  PyDict [(py "price", PyInt 3); (py "category", PyStr (py "clay"))].

Definition a_product : ProductIn.t :=
  ProductIn.make (py "Mug") None 12%float (py "craft") None.

(** ** The diagnostic probe *)

Definition check_mark : str := [0x2705].
Definition cross_mark : str := [0x274C].
Definition warning_sign : str := [0x26A0; 0xFE0F].

(** The [db] object of the [database] module, which the repository does
    not contain: the value of its [name] attribute when it has one, and
    what a call of [list_collection_names()] does (the driver returns a
    list of names). *)
Record db_handle : Type := mkHandle {
  db_name : option str;
  list_collection_names : result exn (list str)
}.

(** The dictionary [response] of [test_database]; its six keys are fixed
    at creation and only their values change. *)
Module Probe.
Record t : Type := make {
  backend : str;
  database : str;
  database_url : option str;
  database_name : option str;
  connection_status : str;
  collections : list str
}.
Definition set_database (r : t) (v : str) : t :=
  make (backend r) v (database_url r) (database_name r)
       (connection_status r) (collections r).
Definition set_database_url (r : t) (v : option str) : t :=
  make (backend r) (database r) v (database_name r)
       (connection_status r) (collections r).
Definition set_database_name (r : t) (v : option str) : t :=
  make (backend r) (database r) (database_url r) v
       (connection_status r) (collections r).
Definition set_connection_status (r : t) (v : str) : t :=
  make (backend r) (database r) (database_url r) (database_name r)
       v (collections r).
Definition set_collections (r : t) (v : list str) : t :=
  make (backend r) (database r) (database_url r) (database_name r)
       (connection_status r) v.
End Probe.

(** The truth value of what [os.getenv] returns: a variable that is unset
    or empty is falsy. *)
Definition is_set (v : option str) : bool :=
  match v with
  | Some (_ :: _) => true
  | _ => false
  end.

(** ["Set" if os.getenv(...) else "Not Set"], with their marks. *)
Definition set_text (v : option str) : str :=
  if is_set v then check_mark ++ py " Set" else cross_mark ++ py " Not Set".

(** [test_database] (source lines 59-88): [import_db] is what
    [from database import db] finds, [getenv] is [os.getenv]. *)
Definition test_database (import_db : result exn (option db_handle))
  (getenv : str -> option str) : Probe.t :=
  let response :=
    Probe.make (check_mark ++ py " Running")
      (cross_mark ++ py " Not Available") None None (py "Not Connected") [] in
  let response :=
    match import_db with
    | Return (Some db) =>
        let response :=
          Probe.set_database response (check_mark ++ py " Available") in
        let response :=
          Probe.set_database_url response
            (Some (set_text (getenv (py "DATABASE_URL")))) in
        let response :=
          Probe.set_database_name response
            (Some (or_default (db_name db) (check_mark ++ py " Connected"))) in
        let response :=
          Probe.set_connection_status response (py "Connected") in
        match list_collection_names db with
        | Return collections =>
            let response :=
              Probe.set_collections response (slice_to 10 collections) in
            Probe.set_database response
              (check_mark ++ py " Connected & Working")
        | Raise e =>
            Probe.set_database response
              (warning_sign ++ py " Connected but Error: "
               ++ slice_to 80 (exn_str e))
        end
    | Return None => response
    | Raise e => Probe.set_database response (probe_error_text e)
    end in
  let response :=
    Probe.set_database_url response
      (Some (set_text (getenv (py "DATABASE_URL")))) in
  let response :=
    Probe.set_database_name response
      (Some (set_text (getenv (py "DATABASE_NAME")))) in
  response.

(** The module inside [store_with]. *)
Definition db_with (docs : pyvalue) : database :=
  mkDatabase (fun _ _ => Return docs)
    (fun _ _ => Return (py "65f1c0ffee0000000000beef")).

Definition jug_below_zero : pyvalue :=
  PyDict [(py "title", PyStr (py "Jug")); (py "price", PyInt (-1));
          (py "category", PyStr (py "clay"))].


Definition closing_cursor : pyvalue :=
  PyCursor [mug; pot] (Some (Exn "AutoReconnect" (py "connection closed"))).

(** A [db] object with fifteen collections, named [a] to [o]. *)
Definition busy_handle : db_handle :=
  mkHandle (Some (py "shop"))
    (Return (map (fun c => [c]) (py "abcdefghijklmno"))).

(** ** Further notions used by the properties *)



(** * Properties *)

Ltac Zify.zify_post_hook ::= Z.to_euclidean_division_equations.

(** Comparisons of the goal whose outcome [lia] can decide. *)
Ltac decide_tests :=
  repeat match goal with
  | |- context [?a <? ?b] =>
      first [ replace (a <? b) with true by (symmetry; apply N.ltb_lt; lia)
            | replace (a <? b) with false by (symmetry; apply N.ltb_ge; lia) ]
  | |- context [?a <=? ?b] =>
      first [ replace (a <=? b) with true by (symmetry; apply N.leb_le; lia)
            | replace (a <=? b) with false by (symmetry; apply N.leb_gt; lia) ]
  | |- context [?a =? ?b] =>
      first [ replace (a =? b) with true by (symmetry; apply N.eqb_eq; lia)
            | replace (a =? b) with false by (symmetry; apply N.eqb_neq; lia) ]
  end.

(** ** The embedded codecs agree with published test vectors *)

Example sha256_constants :
  nth 0 Sha256.K 0 = 0x428a2f98 /\ nth 63 Sha256.K 0 = 0xc67178f2
  /\ length Sha256.K = 64%nat
  /\ Sha256.h0 Sha256.init = 0x6a09e667 /\ Sha256.h7 Sha256.init = 0x5be0cd19.
Proof. evaluate. Qed.

Example sha256_abc :
  Sha256.hexdigest [97; 98; 99] =
  py "ba7816bf8f01cfea414140de5dae2223b00361a396177a9cb410ff61f20015ad".
Proof. evaluate. Qed.

Example sha256_empty :
  Sha256.hexdigest [] =
  py "e3b0c44298fc1c149afbf4c8996fb92427ae41e4649b934ca495991b7852b855".
Proof. evaluate. Qed.

Example sha256_two_blocks :
  Sha256.hexdigest
    (py "abcdbcdecdefdefgefghfghighijhijkijkljklmklmnlmnomnopnopq") =
  py "248d6a61d20638b8e5c026930c3e6039a33ce45964ff2167f6ecedd419db06c1".
Proof. evaluate. Qed.

Example b64_alphabet :
  map Base64.alphabet (map N.of_nat (seq 0 64)) =
  py "ABCDEFGHIJKLMNOPQRSTUVWXYZabcdefghijklmnopqrstuvwxyz0123456789+/".
Proof. reflexivity. Qed.

Example b64_vectors :
  Base64.b64encode (py "f") = py "Zg=="
  /\ Base64.b64encode (py "fo") = py "Zm8="
  /\ Base64.b64encode (py "foobar") = py "Zm9vYmFy".
Proof. evaluate. Qed.

Example float_of_text :
  py_float ascii_runtime (PyStr (py "12")) = Return 12%float
  /\ py_float ascii_runtime (PyStr (py "0.1")) = Return 0x1.999999999999ap-4%float
  /\ py_float ascii_runtime (PyStr (py " -1_000.5e-3 "))
     = Return (-0x1.0020c49ba5e35p+0)%float
  /\ py_float ascii_runtime (PyStr (py "1e400")) = Return infinity
  /\ py_float ascii_runtime (PyStr (py "4.9e-324")) = Return 0x1p-1074%float
  /\ py_float ascii_runtime (PyStr (py "2.4e-324")) = Return zero
  /\ py_float ascii_runtime (PyStr (py "9007199254740993"))
     = Return 9007199254740992%float
  /\ py_float ascii_runtime (PyStr (py "-Infinity")) = Return neg_infinity.
Proof. evaluate. Qed.

Example float_of_number :
  py_float ascii_runtime (PyInt 9007199254740995) = Return 9007199254740996%float
  /\ py_float ascii_runtime (PyInt 0) = Return zero
  /\ py_float ascii_runtime (PyBool true) = Return one.
Proof. evaluate. Qed.

Example float_rejects :
  forallb (fun v => raises (py_float ascii_runtime v))
    [PyStr (py "abc"); PyStr (py "1e"); PyStr (py "1__0"); PyStr (py ".");
     PyStr []; PyStr (py "1 2"); PyNone; PyList []; PyInt (2 ^ 1024)] = true.
Proof. evaluate. Qed.

(** ** UTF-8: encoding succeeds on scalar values and decoding inverts it *)

Section Utf8Facts.

Import Utf8.

Lemma encodable_app a b :
  encodable (a ++ b) = encodable a && encodable b.
Proof. apply forallb_app. Qed.

Lemma encodable_firstn n s : encodable s = true -> encodable (firstn n s) = true.
Proof.
  intros H. rewrite <- (firstn_skipn n s), encodable_app in H.
  now apply andb_true_iff in H as [H _].
Qed.

Lemma bind_return {E A B} (a : A) (k : A -> result E B) :
  bind (Return a) k = k a.
Proof. reflexivity. Qed.

Lemma decode_cons1 b0 r0 :
  b0 < 0x80 -> decode (b0 :: r0) = (s <- decode r0 ;; Return (b0 :: s)).
Proof.
  intros H. apply N.ltb_lt in H. cbn [decode]. rewrite H. reflexivity.
Qed.

Lemma decode_cons2 b0 b1 r :
  0xC0 <= b0 < 0xE0 ->
  decode (b0 :: b1 :: r) =
  if is_cont b1 && (0x80 <=? (b0 - 0xC0) * 64 + (b1 - 0x80))
  then s <- decode r ;; Return ((b0 - 0xC0) * 64 + (b1 - 0x80) :: s)
  else Raise decode_error.
Proof. intros H. cbn [decode]. decide_tests. reflexivity. Qed.

Lemma decode_cons3 b0 b1 b2 r :
  0xE0 <= b0 < 0xF0 ->
  decode (b0 :: b1 :: b2 :: r) =
  if is_cont b1 && is_cont b2
     && (0x800 <=? (b0 - 0xE0) * 4096 + (b1 - 0x80) * 64 + (b2 - 0x80))
     && negb (is_surrogate
                ((b0 - 0xE0) * 4096 + (b1 - 0x80) * 64 + (b2 - 0x80)))
  then s <- decode r ;;
       Return ((b0 - 0xE0) * 4096 + (b1 - 0x80) * 64 + (b2 - 0x80) :: s)
  else Raise decode_error.
Proof. intros H. cbn [decode]. decide_tests. reflexivity. Qed.

Lemma decode_cons4 b0 b1 b2 b3 r :
  0xF0 <= b0 < 0xF8 ->
  decode (b0 :: b1 :: b2 :: b3 :: r) =
  if is_cont b1 && is_cont b2 && is_cont b3
     && (0x10000 <=? (b0 - 0xF0) * 262144 + (b1 - 0x80) * 4096
                     + (b2 - 0x80) * 64 + (b3 - 0x80))
     && ((b0 - 0xF0) * 262144 + (b1 - 0x80) * 4096
         + (b2 - 0x80) * 64 + (b3 - 0x80) <? 0x110000)
  then s <- decode r ;;
       Return ((b0 - 0xF0) * 262144 + (b1 - 0x80) * 4096
               + (b2 - 0x80) * 64 + (b3 - 0x80) :: s)
  else Raise decode_error.
Proof. intros H. cbn [decode]. decide_tests. reflexivity. Qed.

Lemma cons_app {A} (a : A) (l r : list A) : (a :: l) ++ r = a :: (l ++ r).
Proof. reflexivity. Qed.

Ltac open_bytes := rewrite ?cons_app, ?app_nil_l.

Lemma Some_inj {A} (a b : A) : Some a = Some b -> a = b.
Proof. now intros [= ->]. Qed.

(** One encoded character in front of any bytes decodes to that
    character in front of their decoding. *)
Lemma decode_encode_char c bs rest :
  encode_char c = Some bs ->
  decode (bs ++ rest) = (s <- decode rest ;; Return (c :: s)).
Proof.
  unfold encode_char.
  destruct (c <? 0x80) eqn:H1.
  { intros E; apply Some_inj in E; subst bs. apply N.ltb_lt in H1. now apply decode_cons1. }
  apply N.ltb_ge in H1.
  destruct (c <? 0x800) eqn:H2.
  { intros E; apply Some_inj in E; subst bs. apply N.ltb_lt in H2. open_bytes.
    rewrite decode_cons2 by lia.
    replace (_ * 64 + _) with c by lia.
    unfold is_cont. decide_tests. reflexivity. }
  apply N.ltb_ge in H2.
  destruct (c <? 0x10000) eqn:H3.
  { destruct (is_surrogate c) eqn:Hs; [discriminate|].
    intros E; apply Some_inj in E; subst bs. apply N.ltb_lt in H3. open_bytes.
    rewrite decode_cons3 by lia.
    replace (_ * 4096 + _ * 64 + _) with c by lia.
    rewrite Hs. unfold is_cont. decide_tests. reflexivity. }
  apply N.ltb_ge in H3.
  destruct (c <? 0x110000) eqn:H4; [|discriminate].
  intros E; apply Some_inj in E; subst bs. apply N.ltb_lt in H4. open_bytes.
  rewrite decode_cons4 by lia.
  replace (_ * 262144 + _ * 4096 + _ * 64 + _) with c by lia.
  unfold is_cont. decide_tests. reflexivity.
Qed.

Lemma encode_char_bytes c bs :
  encode_char c = Some bs -> forallb is_byte bs = true.
Proof.
  unfold encode_char, is_byte.
  destruct (c <? 0x80) eqn:H1.
  { intros E; apply Some_inj in E; subst bs. apply N.ltb_lt in H1. cbn [forallb]. decide_tests. reflexivity. }
  destruct (c <? 0x800) eqn:H2.
  { intros E; apply Some_inj in E; subst bs. apply N.ltb_lt in H2. cbn [forallb]. decide_tests. reflexivity. }
  destruct (c <? 0x10000) eqn:H3.
  { destruct (is_surrogate c); [discriminate|].
    intros E; apply Some_inj in E; subst bs. apply N.ltb_lt in H3. cbn [forallb]. decide_tests. reflexivity. }
  destruct (c <? 0x110000) eqn:H4; [|discriminate].
  intros E; apply Some_inj in E; subst bs. apply N.ltb_lt in H4.
  cbn [forallb]. decide_tests. reflexivity.
Qed.

Lemma encode_char_scalar c :
  is_scalar c = true -> exists bs, encode_char c = Some bs.
Proof.
  unfold is_scalar, encode_char. intros H.
  apply andb_true_iff in H as [H4 Hs]. apply negb_true_iff in Hs.
  rewrite Hs, H4.
  destruct (c <? 0x80); [eauto|]. destruct (c <? 0x800); [eauto|].
  destruct (c <? 0x10000); eauto.
Qed.

(** [encode] is total on encodable strings. *)
Lemma encode_total s :
  encodable s = true -> exists bs, encode s = Return bs.
Proof.
  induction s as [|c s IH]; cbn [encodable forallb encode]; [eauto|].
  intros H. apply andb_true_iff in H as [Hc Hs].
  destruct (encode_char_scalar c Hc) as [bs ->].
  destruct (IH Hs) as [bs' ->]. rewrite bind_return. eauto.
Qed.

Lemma encode_bytes s bs :
  encode s = Return bs -> forallb is_byte bs = true.
Proof.
  revert bs. induction s as [|c s IH]; cbn [encode]; intros bs.
  { now intros [= <-]. }
  destruct (encode_char c) as [b|] eqn:Hc; [|discriminate].
  destruct (encode s) as [bs'|]; [|discriminate].
  cbn. intros [= <-]. rewrite forallb_app.
  rewrite (encode_char_bytes _ _ Hc), (IH _ eq_refl). reflexivity.
Qed.

(** Decoding inverts encoding. *)
Lemma decode_encode s bs :
  encode s = Return bs -> decode bs = Return s.
Proof.
  revert bs. induction s as [|c s IH]; cbn [encode]; intros bs.
  { now intros [= <-]. }
  destruct (encode_char c) as [b|] eqn:Hc; [|discriminate].
  destruct (encode s) as [bs'|]; [|discriminate].
  cbn. intros [= <-].
  rewrite (decode_encode_char _ _ _ Hc), (IH _ eq_refl). reflexivity.
Qed.

(** ASCII bytes decode to themselves. *)
Lemma decode_ascii bs :
  forallb (fun b => b <? 0x80) bs = true -> decode bs = Return bs.
Proof.
  induction bs as [|b bs IH]; [reflexivity|].
  cbn [forallb]. intros H. apply andb_true_iff in H as [Hb Hs].
  apply N.ltb_lt in Hb. rewrite (decode_cons1 _ _ Hb), (IH Hs). reflexivity.
Qed.

End Utf8Facts.

(** ** Base64: the output is ASCII and decodes back to the input *)

Section Base64Facts.

Import Base64.

Ltac split_alphabet i :=
  unfold alphabet;
  destruct (i <? 26) eqn:?H26;
    [ apply N.ltb_lt in H26
    | apply N.ltb_ge in H26; destruct (i <? 52) eqn:?H52;
      [ apply N.ltb_lt in H52
      | apply N.ltb_ge in H52; destruct (i <? 62) eqn:?H62;
        [ apply N.ltb_lt in H62
        | apply N.ltb_ge in H62; destruct (i =? 62) eqn:?E62;
          [ apply N.eqb_eq in E62 | apply N.eqb_neq in E62 ] ] ] ].

Lemma alphabet_ascii i : (alphabet i <? 0x80) = true.
Proof. apply N.ltb_lt. split_alphabet i; lia. Qed.

Lemma alphabet_not_pad i : (alphabet i =? pad_char) = false.
Proof. apply N.eqb_neq. unfold pad_char. split_alphabet i; lia. Qed.

Lemma index_alphabet i : i < 64 -> index (alphabet i) = Some i.
Proof.
  intros Hi. unfold index.
  split_alphabet i; decide_tests; cbn [andb]; f_equal; lia.
Qed.

(** Induction on a list taken three elements at a time. *)
Lemma list_ind3 {A} (P : list A -> Prop) :
  P [] -> (forall a, P [a]) -> (forall a b, P [a; b]) ->
  (forall a b c r, P r -> P (a :: b :: c :: r)) ->
  forall l, P l.
Proof.
  intros H0 H1 H2 H3 l.
  enough (P l /\ (forall a, P (a :: l)) /\ (forall a b, P (a :: b :: l)))
    by tauto.
  induction l as [|x l (IH0 & IH1 & IH2)]; auto.
Qed.

Lemma b64encode_ascii bs :
  forallb (fun b => b <? 0x80) (b64encode bs) = true.
Proof.
  induction bs as [|a|a b|a b c r IH] using list_ind3;
    cbn [b64encode forallb]; rewrite ?alphabet_ascii; auto.
Qed.

Lemma b64decode_4 c1 c2 c3 c4 r :
  b64decode (c1 :: c2 :: c3 :: c4 :: r) =
  match index c1, index c2 with
  | Some s1, Some s2 =>
      if (c3 =? pad_char) && (c4 =? pad_char) then
        match r with [] => Some [s1 * 4 + s2 / 16] | _ => None end
      else
        match index c3 with
        | Some s3 =>
            if c4 =? pad_char then
              match r with
              | [] => Some [s1 * 4 + s2 / 16; (s2 mod 16) * 16 + s3 / 4]
              | _ => None
              end
            else
              match index c4, b64decode r with
              | Some s4, Some bs =>
                  Some (s1 * 4 + s2 / 16 :: (s2 mod 16) * 16 + s3 / 4
                        :: (s3 mod 4) * 64 + s4 :: bs)
              | _, _ => None
              end
        | None => None
        end
  | _, _ => None
  end.
Proof. reflexivity. Qed.

(** A full group of four characters. *)
Lemma b64decode_group s1 s2 s3 s4 r bs :
  s1 < 64 -> s2 < 64 -> s3 < 64 -> s4 < 64 ->
  b64decode r = Some bs ->
  b64decode (alphabet s1 :: alphabet s2 :: alphabet s3 :: alphabet s4 :: r) =
  Some (s1 * 4 + s2 / 16 :: (s2 mod 16) * 16 + s3 / 4
        :: (s3 mod 4) * 64 + s4 :: bs).
Proof.
  intros H1 H2 H3 H4 Hr.
  rewrite b64decode_4, !index_alphabet, !alphabet_not_pad, Hr by assumption.
  reflexivity.
Qed.

(** Decoding inverts encoding. *)
Lemma b64decode_b64encode bs :
  forallb is_byte bs = true -> b64decode (b64encode bs) = Some bs.
Proof.
  unfold is_byte.
  induction bs as [|a|a b|a b c r IH] using list_ind3;
    cbn [forallb b64encode]; intros H;
    repeat match type of H with
           | _ && _ = true => apply andb_true_iff in H as [?Hb H]
           end;
    repeat match goal with
           | Hb : (_ <? 256) = true |- _ => apply N.ltb_lt in Hb
           end.
  - reflexivity.
  - rewrite b64decode_4, !index_alphabet by lia.
    rewrite N.eqb_refl. cbn [andb]. f_equal. f_equal. lia.
  - rewrite b64decode_4, !index_alphabet, alphabet_not_pad by lia.
    rewrite N.eqb_refl. cbn [andb]. f_equal. f_equal; [lia|f_equal; lia].
  - rewrite (b64decode_group _ _ _ _ _ r) by (auto; lia).
    f_equal. f_equal; [lia|]. f_equal; [lia|]. f_equal. lia.
Qed.

End Base64Facts.

(** ** SHA-256: the digest is thirty-two bytes, its text sixty-four digits *)

Section Sha256Facts.

Import Sha256.

Lemma length_be_bytes n x : length (be_bytes n x) = n.
Proof.
  revert x. induction n as [|n IH]; intros x; cbn [be_bytes]; [reflexivity|].
  rewrite length_app, IH. cbn. lia.
Qed.

Lemma be_bytes_bytes n x : forallb is_byte (be_bytes n x) = true.
Proof.
  revert x. induction n as [|n IH]; intros x; cbn [be_bytes]; [reflexivity|].
  rewrite forallb_app, IH. cbn [forallb andb]. unfold is_byte.
  replace (x mod 256 <? 256) with true; [reflexivity|].
  symmetry. apply N.ltb_lt. lia.
Qed.

Lemma length_digest msg : length (digest msg) = 32%nat.
Proof. unfold digest. rewrite !length_app, !length_be_bytes. reflexivity. Qed.

Lemma digest_bytes msg : forallb is_byte (digest msg) = true.
Proof. unfold digest. rewrite !forallb_app, !be_bytes_bytes. reflexivity. Qed.

Lemma length_hex bs : length (hex bs) = (2 * length bs)%nat.
Proof. induction bs as [|b bs IH]; cbn [hex length]; lia. Qed.

Lemma hex_digit_range d : d < 16 -> is_hex_digit (hex_digit d) = true.
Proof.
  intros H. unfold is_hex_digit, hex_digit.
  destruct (d <? 10) eqn:E; [apply N.ltb_lt in E|apply N.ltb_ge in E].
  - apply orb_true_iff. left. apply andb_true_iff.
    split; apply N.leb_le; lia.
  - apply orb_true_iff. right. apply andb_true_iff.
    split; apply N.leb_le; lia.
Qed.

Lemma hex_digits bs :
  forallb is_byte bs = true -> forallb is_hex_digit (hex bs) = true.
Proof.
  induction bs as [|b bs IH]; [reflexivity|].
  cbn [forallb hex]. intros H. apply andb_true_iff in H as [Hb Hs].
  apply N.ltb_lt in Hb.
  rewrite !hex_digit_range, (IH Hs) by lia. reflexivity.
Qed.

(** The hexadecimal digest has sixty-four lower-case hexadecimal
    digits. *)
Lemma length_hexdigest msg : length (hexdigest msg) = 64%nat.
Proof. unfold hexdigest. rewrite length_hex, length_digest. reflexivity. Qed.

Lemma hexdigest_digits msg : forallb is_hex_digit (hexdigest msg) = true.
Proof. apply hex_digits, digest_bytes. Qed.

End Sha256Facts.

(** ** The generator: what [_svg_placeholder] returns on encodable text *)

Lemma str_eqb_eq a b : str_eqb a b = true <-> a = b.
Proof.
  revert b. induction a as [|x a IH]; intros [|y b]; cbn [str_eqb];
    try (split; [discriminate|discriminate]); [tauto|].
  rewrite andb_true_iff, N.eqb_eq, IH. split.
  - now intros [-> ->].
  - now intros [= -> ->].
Qed.

Lemma str_in_spec x xs : str_in x xs = true <-> In x xs.
Proof.
  unfold str_in. rewrite existsb_exists. split.
  - intros (y & Hy & E). apply str_eqb_eq in E. now subst.
  - intros H. exists x. split; [assumption|]. now apply str_eqb_eq.
Qed.

Lemma encodable_skipn n s : encodable s = true -> encodable (skipn n s) = true.
Proof.
  intros H. rewrite <- (firstn_skipn n s), encodable_app in H.
  now apply andb_true_iff in H as [_ H].
Qed.

Lemma hex_digit_scalar c :
  Sha256.is_hex_digit c = true -> Utf8.is_scalar c = true.
Proof.
  unfold Sha256.is_hex_digit, Utf8.is_scalar, Utf8.is_surrogate. intros H.
  assert (c <= 102) as Hc.
  { apply orb_true_iff in H as [H|H]; apply andb_true_iff in H as [_ H];
      apply N.leb_le in H; lia. }
  apply andb_true_iff. split; [apply N.ltb_lt; lia|].
  apply negb_true_iff, andb_false_iff. left. apply N.leb_gt. lia.
Qed.

Lemma hex_encodable s :
  forallb Sha256.is_hex_digit s = true -> encodable s = true.
Proof.
  unfold encodable. rewrite !forallb_forall.
  intros H c Hc. apply hex_digit_scalar, H, Hc.
Qed.

Lemma canvas_cases a :
  canvas a = (1280, 720)%Z \/ canvas a = (960, 1280)%Z
  \/ canvas a = (1024, 1024)%Z.
Proof.
  unfold canvas.
  destruct (str_in a _); [tauto|]. destruct (str_in a _); tauto.
Qed.

(** The composed markup of encodable text is itself encodable. *)
Lemma composed_svg_encodable p s a seed :
  encodable p = true -> encodable s = true ->
  forallb Sha256.is_hex_digit seed = true ->
  encodable (composed_svg p s a seed) = true.
Proof.
  intros Hp Hs Hseed. apply hex_encodable in Hseed.
  pose proof (encodable_firstn 80 _ Hp) as Ht.
  pose proof (encodable_firstn 6 _ Hseed) as H1.
  pose proof (encodable_firstn 6 _ (encodable_skipn 6 _ Hseed)) as H2.
  pose proof (encodable_firstn 6 _ (encodable_skipn 12 _ Hseed)) as H3.
  unfold composed_svg, stop_colors, slice, slice_to.
  change (12 - 6)%nat with 6%nat. change (18 - 12)%nat with 6%nat.
  destruct (canvas_cases a) as [-> | [-> | ->]];
    unfold svg_markup; rewrite !encodable_app, Ht, H1, H2, H3, Hs;
    vm_compute; reflexivity.
Qed.

(** [_svg_placeholder] in terms of the composed markup. *)
Lemma svg_placeholder_eq p s a :
  _svg_placeholder p s a =
  (b <- Utf8.encode (p ++ s ++ a) ;;
   sb <- Utf8.encode (composed_svg p s a (Sha256.hexdigest b)) ;;
   data <- Utf8.decode (Base64.b64encode sb) ;;
   Return (data_uri_prefix ++ data)).
Proof.
  unfold _svg_placeholder, composed_svg.
  destruct (Utf8.encode (p ++ s ++ a)) as [b|e]; [|reflexivity].
  cbn [bind]. unfold stop_colors. cbv beta iota zeta.
  destruct (canvas a) as [w h]. reflexivity.
Qed.

(** On encodable text the generator returns: the prefix followed by the
    base64 text of the UTF-8 bytes of the composed markup. *)
Lemma svg_placeholder_returns p s a :
  encodable p = true -> encodable s = true -> encodable a = true ->
  exists b sb,
    Utf8.encode (p ++ s ++ a) = Return b
    /\ Utf8.encode (composed_svg p s a (Sha256.hexdigest b)) = Return sb
    /\ _svg_placeholder p s a
       = Return (data_uri_prefix ++ Base64.b64encode sb).
Proof.
  intros Hp Hs Ha.
  destruct (encode_total (p ++ s ++ a)) as [b Hb].
  { rewrite !encodable_app, Hp, Hs, Ha. reflexivity. }
  destruct (encode_total
              (composed_svg p s a (Sha256.hexdigest b))) as [sb Hsb].
  { apply composed_svg_encodable; auto using hexdigest_digits. }
  exists b, sb. split_conj; try assumption.
  rewrite svg_placeholder_eq, Hb, bind_return, Hsb, bind_return.
  rewrite decode_ascii by apply b64encode_ascii. reflexivity.
Qed.

Lemma starts_here n r : starts n (n ++ r).
Proof. now exists r. Qed.

Lemma starts_app x n h : starts n h -> starts (x ++ n) (x ++ h).
Proof. intros [post ->]. exists post. now rewrite app_assoc. Qed.

Lemma contains_starts n h : starts n h -> contains n h.
Proof. intros [post ->]. now exists [], post. Qed.

Lemma contains_skip x n h : contains n h -> contains n (x ++ h).
Proof.
  intros (pre & post & ->). exists (x ++ pre), post. now rewrite app_assoc.
Qed.

Lemma contains_trans a b c : contains a b -> contains b c -> contains a c.
Proof.
  intros (p1 & q1 & ->) (p2 & q2 & ->). exists (p2 ++ p1), (q1 ++ q2).
  now rewrite <- !app_assoc.
Qed.

Ltac find_needle :=
  first [ apply contains_starts;
          solve [ repeat apply starts_app; apply starts_here ]
        | apply contains_skip; find_needle ].

(** The opening tag carries the canvas size. *)
Lemma composed_svg_opening p s a seed :
  starts (lit "<svg xmlns='http://www.w3.org/2000/svg' width='"
          ++ str_of_int (fst (canvas a)) ++ lit "' height='"
          ++ str_of_int (snd (canvas a)) ++ lit "'>")
         (composed_svg p s a seed).
Proof.
  unfold composed_svg, stop_colors, svg_markup.
  destruct (canvas a) as [w h]. cbn [fst snd].
  do 4 apply starts_app. apply starts_here.
Qed.

(** The first text element carries [prompt[:80]]. *)
Lemma composed_svg_text p s a seed :
  contains (lit "<text x='50%' y='50%' text-anchor='middle'>"
            ++ slice_to 80 p ++ lit "</text>")
           (composed_svg p s a seed).
Proof.
  unfold composed_svg, stop_colors, svg_markup.
  destruct (canvas a) as [w h].
  change (lit "      <text x='50%' y='50%' text-anchor='middle'>")
    with (lit "      "
          ++ lit "<text x='50%' y='50%' text-anchor='middle'>").
  rewrite <- !app_assoc.
  find_needle.
Qed.


(** ** Claims about the generator *)

Lemma stop_colors_windows seed :
  length seed = 64%nat ->
  stop_colors seed =
  (py "#" ++ window 0 seed, py "#" ++ window 6 seed, py "#" ++ window 12 seed).
Proof.
  intros H.
  do 18 (destruct seed as [|? seed]; [discriminate H|]).
  reflexivity.
Qed.

Lemma slice_to_short {A} n (s : list A) :
  (length s <= n)%nat -> slice_to n s = s.
Proof. intros H. unfold slice_to. now apply firstn_all2. Qed.

Lemma slice_to_long {A} n (s : list A) :
  (n < length s)%nat ->
  length (slice_to n s) = n /\ exists tail, s = slice_to n s ++ tail.
Proof.
  intros H. unfold slice_to. split.
  - apply firstn_length_le. lia.
  - exists (skipn n s). symmetry. apply firstn_skipn.
Qed.

Lemma generate_art_eq req :
  generate_art req =
  (image_url <- _svg_placeholder (ArtRequest.prompt req)
                  (or_default (ArtRequest.style req) (py "dreamy"))
                  (or_default (ArtRequest.aspect req) (py "1:1")) ;;
   Return (ArtResponse.make image_url (ArtRequest.prompt req)
             (or_default (ArtRequest.style req) (py "dreamy"))
             (py "placeholder"))).
Proof. reflexivity. Qed.



(** C4. The seed is the SHA-256 hexadecimal digest of the UTF-8 bytes of
    prompt, style and aspect joined in that order with nothing between;
    it has sixty-four digits, and the three stop colours written into the
    markup are a hash sign followed by its digits 0-5, 6-11 and 12-17. *)
Theorem seed_and_stop_colors (p s a : str) :
  encodable p = true -> encodable s = true -> encodable a = true ->
  exists b sb,
    Utf8.encode (p ++ s ++ a) = Return b
    /\ let digest := Sha256.hexdigest b in
       length digest = 64%nat
       /\ stop_colors digest
          = (py "#" ++ window 0 digest, py "#" ++ window 6 digest,
             py "#" ++ window 12 digest)
       /\ Utf8.encode
            (svg_markup (fst (canvas a)) (snd (canvas a))
               (py "#" ++ window 0 digest) (py "#" ++ window 6 digest)
               (py "#" ++ window 12 digest) (slice_to 80 p) s)
          = Return sb
       /\ _svg_placeholder p s a
          = Return (data_uri_prefix ++ Base64.b64encode sb).
Proof.
  intros Hp Hs Ha.
  destruct (svg_placeholder_returns p s a Hp Hs Ha) as (b & sb & Hb & Hsb & H).
  exists b, sb. split; [assumption|]. cbv zeta.
  pose proof (length_hexdigest b) as Hlen.
  pose proof (stop_colors_windows _ Hlen) as Hc.
  split_conj; try assumption.
  unfold composed_svg in Hsb. rewrite Hc in Hsb.
  destruct (canvas a) as [w h]. exact Hsb.
Qed.

Lemma seed_and_stop_colors_witness :
  exists b sb,
    Utf8.encode (py "a glowing forest" ++ py "neon" ++ py "16:9") = Return b
    /\ let digest := Sha256.hexdigest b in
       length digest = 64%nat
       /\ stop_colors digest
          = (py "#" ++ window 0 digest, py "#" ++ window 6 digest,
             py "#" ++ window 12 digest)
       /\ Utf8.encode
            (svg_markup (fst (canvas (py "16:9"))) (snd (canvas (py "16:9")))
               (py "#" ++ window 0 digest) (py "#" ++ window 6 digest)
               (py "#" ++ window 12 digest)
               (slice_to 80 (py "a glowing forest")) (py "neon"))
          = Return sb
       /\ _svg_placeholder (py "a glowing forest") (py "neon") (py "16:9")
          = Return (data_uri_prefix ++ Base64.b64encode sb).
Proof.
  apply (seed_and_stop_colors (py "a glowing forest") (py "neon") (py "16:9"));
    reflexivity.
Defined.

(** C5. The canvas is 1280 by 720 for the aspects "16:9" and "16-9", 960
    by 1280 for "3:4" and "3-4", and 1024 by 1024 for every other aspect;
    the generated markup opens with that width and height. *)
Theorem aspect_to_canvas (a : str) :
  (a = py "16:9" \/ a = py "16-9" -> canvas a = (1280, 720)%Z)
  /\ (a = py "3:4" \/ a = py "3-4" -> canvas a = (960, 1280)%Z)
  /\ (a <> py "16:9" -> a <> py "16-9" -> a <> py "3:4" -> a <> py "3-4" ->
      canvas a = (1024, 1024)%Z)
  /\ (forall p s,
        encodable p = true -> encodable s = true -> encodable a = true ->
        exists svg sb,
          _svg_placeholder p s a
          = Return (data_uri_prefix ++ Base64.b64encode sb)
          /\ Utf8.encode svg = Return sb
          /\ starts (lit "<svg xmlns='http://www.w3.org/2000/svg' width='"
                     ++ str_of_int (fst (canvas a)) ++ lit "' height='"
                     ++ str_of_int (snd (canvas a)) ++ lit "'>") svg).
Proof.
  split_conj.
  - intros [-> | ->]; reflexivity.
  - intros [-> | ->]; reflexivity.
  - intros H1 H2 H3 H4. unfold canvas.
    destruct (str_in a [py "16:9"; py "16-9"]) eqn:E1.
    { apply str_in_spec in E1. cbn [In] in E1. intuition congruence. }
    destruct (str_in a [py "3:4"; py "3-4"]) eqn:E2.
    { apply str_in_spec in E2. cbn [In] in E2. intuition congruence. }
    reflexivity.
  - intros p s Hp Hs Ha.
    destruct (svg_placeholder_returns p s a Hp Hs Ha)
      as (b & sb & Hb & Hsb & H).
    exists (composed_svg p s a (Sha256.hexdigest b)), sb.
    split_conj; try assumption. apply composed_svg_opening.
Qed.

Lemma aspect_to_canvas_witness :
  canvas (py "3-4") = (960, 1280)%Z
  /\ canvas (py "4:3") = (1024, 1024)%Z
  /\ exists svg sb,
       _svg_placeholder (py "a glowing forest") (py "neon") (py "16-9")
       = Return (data_uri_prefix ++ Base64.b64encode sb)
       /\ Utf8.encode svg = Return sb
       /\ starts (lit "<svg xmlns='http://www.w3.org/2000/svg' width='"
                  ++ str_of_int (fst (canvas (py "16-9"))) ++ lit "' height='"
                  ++ str_of_int (snd (canvas (py "16-9"))) ++ lit "'>") svg.
Proof.
  split; [|split].
  - apply (proj1 (proj2 (aspect_to_canvas (py "3-4")))).
    right. reflexivity.
  - apply (proj1 (proj2 (proj2 (aspect_to_canvas (py "4:3")))));
      discriminate.
  - apply (proj2 (proj2 (proj2 (aspect_to_canvas (py "16-9")))));
      reflexivity.
Defined.

(** C8. The text rendered into the markup is the whole prompt when it has
    at most 80 characters, and exactly its first 80 characters when it
    has more. *)
Theorem prompt_truncation (p s a : str) :
  encodable p = true -> encodable s = true -> encodable a = true ->
  exists text svg sb,
    _svg_placeholder p s a = Return (data_uri_prefix ++ Base64.b64encode sb)
    /\ Utf8.encode svg = Return sb
    /\ contains (lit "<text x='50%' y='50%' text-anchor='middle'>"
                 ++ text ++ lit "</text>") svg
    /\ ((length p <= 80)%nat -> text = p)
    /\ ((80 < length p)%nat ->
        length text = 80%nat /\ exists tail, p = text ++ tail).
Proof.
  intros Hp Hs Ha.
  destruct (svg_placeholder_returns p s a Hp Hs Ha) as (b & sb & Hb & Hsb & H).
  exists (slice_to 80 p), (composed_svg p s a (Sha256.hexdigest b)), sb.
  split_conj; try assumption.
  - apply composed_svg_text.
  - apply slice_to_short.
  - apply slice_to_long.
Qed.

Lemma prompt_truncation_witness :
  exists text svg sb,
    _svg_placeholder (repeat 97 100) [] []
    = Return (data_uri_prefix ++ Base64.b64encode sb)
    /\ Utf8.encode svg = Return sb
    /\ contains (lit "<text x='50%' y='50%' text-anchor='middle'>"
                 ++ text ++ lit "</text>") svg
    /\ length text = 80%nat
    /\ exists tail, repeat 97 100 = text ++ tail.
Proof.
  destruct (prompt_truncation (repeat 97 100) [] [] eq_refl eq_refl eq_refl)
    as (text & svg & sb & H1 & H2 & H3 & _ & H5).
  assert (80 < length (repeat 97 100))%nat as Hlen
    by (apply Nat.ltb_lt; reflexivity).
  destruct (H5 Hlen) as [H6 H7].
  exists text, svg, sb. exact (conj H1 (conj H2 (conj H3 (conj H6 H7)))).
Defined.

(** C9. The image is the text [data:image/svg+xml;base64,] followed by
    the base64 encoding of the UTF-8 bytes of the composed markup;
    decoding the payload gives back that markup, which contains the width
    and height attributes of the canvas and the prompt cut at 80
    characters.  For "a glowing forest", "neon", "16:9" the response has
    provider "placeholder", style "neon", and its image decodes to markup
    with width 1280, height 720 and the prompt. *)
Theorem data_uri_encoding :
  (forall p s a,
     encodable p = true -> encodable s = true -> encodable a = true ->
     exists image b,
       _svg_placeholder p s a = Return image
       /\ Utf8.encode (p ++ s ++ a) = Return b
       /\ decodes_to image (composed_svg p s a (Sha256.hexdigest b))
       /\ contains (lit "width='" ++ str_of_int (fst (canvas a))
                    ++ lit "' height='" ++ str_of_int (snd (canvas a))
                    ++ lit "'")
                   (composed_svg p s a (Sha256.hexdigest b))
       /\ contains (slice_to 80 p)
                   (composed_svg p s a (Sha256.hexdigest b)))
  /\ exists image svg,
       generate_art
         (ArtRequest.make (py "a glowing forest") (Some (py "neon"))
            (Some (py "16:9")))
       = Return (ArtResponse.make image (py "a glowing forest") (py "neon")
                   (py "placeholder"))
       /\ decodes_to image svg
       /\ contains (lit "width='1280' height='720'") svg
       /\ contains (py "a glowing forest") svg.
Proof.
  assert (forall p s a,
     encodable p = true -> encodable s = true -> encodable a = true ->
     exists image b,
       _svg_placeholder p s a = Return image
       /\ Utf8.encode (p ++ s ++ a) = Return b
       /\ decodes_to image (composed_svg p s a (Sha256.hexdigest b))
       /\ contains (lit "width='" ++ str_of_int (fst (canvas a))
                    ++ lit "' height='" ++ str_of_int (snd (canvas a))
                    ++ lit "'")
                   (composed_svg p s a (Sha256.hexdigest b))
       /\ contains (slice_to 80 p)
                   (composed_svg p s a (Sha256.hexdigest b))) as General.
  { intros p s a Hp Hs Ha.
    destruct (svg_placeholder_returns p s a Hp Hs Ha)
      as (b & sb & Hb & Hsb & H).
    exists (data_uri_prefix ++ Base64.b64encode sb), b.
    split_conj; try assumption.
    - exists (Base64.b64encode sb), sb.
      split_conj; try assumption; try reflexivity.
      + apply b64decode_b64encode. eapply encode_bytes. exact Hsb.
      + now apply decode_encode.
    - eapply contains_trans;
        [|apply contains_starts, composed_svg_opening].
      change (lit "<svg xmlns='http://www.w3.org/2000/svg' width='")
        with (lit "<svg xmlns='http://www.w3.org/2000/svg' "
              ++ lit "width='").
      change (lit "'>") with (lit "'" ++ lit ">").
      rewrite <- !app_assoc. find_needle.
    - eapply contains_trans; [|apply composed_svg_text]. find_needle. }
  split; [exact General|].
  destruct (General (py "a glowing forest") (py "neon") (py "16:9")
              eq_refl eq_refl eq_refl) as (image & b & H & Hb & Hd & Hw & Ht).
  exists image, (composed_svg (py "a glowing forest") (py "neon") (py "16:9")
                   (Sha256.hexdigest b)).
  split_conj; try assumption.
  rewrite generate_art_eq.
  change (or_default (ArtRequest.style _) _) with (py "neon").
  change (or_default (ArtRequest.aspect _) _) with (py "16:9").
  change (ArtRequest.prompt _) with (py "a glowing forest").
  rewrite H. reflexivity.
Qed.

Lemma data_uri_encoding_witness :
  exists image b,
    _svg_placeholder (py "caf" ++ [233]) (py "ink") (py "3:4") = Return image
    /\ Utf8.encode ((py "caf" ++ [233]) ++ py "ink" ++ py "3:4") = Return b
    /\ decodes_to image
         (composed_svg (py "caf" ++ [233]) (py "ink") (py "3:4")
            (Sha256.hexdigest b)).
Proof.
  destruct (proj1 data_uri_encoding (py "caf" ++ [233]) (py "ink") (py "3:4")
              eq_refl eq_refl eq_refl) as (image & b & H1 & H2 & H3 & _).
  exists image, b. split_conj; assumption.
Defined.

(** ** The catalog: the loop, the mapping of one document, the handlers *)

Section CatalogFacts.

Variable rt : Runtime.

Lemma bind_inv {E A B} (r : result E A) (k : A -> result E B) (b : B) :
  bind r k = Return b -> exists a, r = Return a /\ k a = Return b.
Proof. destruct r as [a|e]; [eauto|discriminate]. Qed.

(** A completed loop met no failure: every document was mapped, in order,
    and the cursor stopped without raising. *)
Lemma collect_returns items fail acc out :
  collect rt items fail acc = Return out ->
  fail = None
  /\ exists ps, out = acc ++ ps
                /\ Forall2 (fun d p => product_out rt d = Return p) items ps.
Proof.
  revert acc. induction items as [|d items IH]; intros acc; cbn [collect].
  - destruct fail; [discriminate|]. intros [= <-].
    split; [reflexivity|]. exists []. now rewrite app_nil_r.
  - intros H. apply bind_inv in H as (p & Hp & H).
    apply IH in H as (Hf & ps & -> & Hps). split; [assumption|].
    exists (p :: ps). rewrite <- app_assoc. split; [reflexivity|].
    now constructor.
Qed.

(** One document that cannot be mapped ends the loop with an
    exception. *)
Lemma collect_raises items fail acc d e :
  In d items -> product_out rt d = Raise e ->
  exists e', collect rt items fail acc = Raise e'.
Proof.
  revert acc. induction items as [|d0 items IH]; intros acc; [contradiction|].
  intros [-> | Hin] He; cbn [collect].
  - rewrite He. cbn [bind]. eauto.
  - destruct (product_out rt d0) as [p|e0]; cbn [bind]; [|eauto].
    now apply IH.
Qed.

Lemma list_products_of_try env :
  list_products rt env =
  match list_products_try rt env with
  | Return res => Return res
  | Raise _ => Return []
  end.
Proof. reflexivity. Qed.

Lemma list_products_try_store db docs items fail :
  get_documents db (py "product") (PyDict []) = Return docs ->
  iterate docs = Return (items, fail) ->
  list_products_try rt (Return db) = collect rt items fail [].
Proof.
  intros Hd Hi. unfold list_products_try. cbn [bind].
  rewrite Hd. cbn [bind]. rewrite Hi. reflexivity.
Qed.

Lemma list_products_try_inv env out :
  list_products_try rt env = Return out ->
  exists db docs items fail,
    env = Return db
    /\ get_documents db (py "product") (PyDict []) = Return docs
    /\ iterate docs = Return (items, fail)
    /\ collect rt items fail [] = Return out.
Proof.
  unfold list_products_try. intros H.
  apply bind_inv in H as (db & -> & H).
  apply bind_inv in H as (docs & Hd & H).
  apply bind_inv in H as ([items fail] & Hi & H).
  exists db, docs, items, fail. auto.
Qed.

Lemma float_ge0_inv f f' :
  Pydantic.float_ge0 f = Return f' -> f' = f.
Proof.
  unfold Pydantic.float_ge0. destruct (PrimFloat.ltb f zero); [discriminate|].
  now intros [= <-].
Qed.

Lemma string_inv v s : Pydantic.string v = Return s -> v = PyStr s.
Proof. destruct v; try discriminate. now intros [= <-]. Qed.

(** What a successfully built product says about its document. *)
Lemma product_out_inv d p :
  product_out rt d = Return p ->
  exists items,
    d = PyDict items
    /\ field_or items (py "title") PyNone = PyStr (ProductOut.title p)
    /\ py_float rt (field_or items (py "price") (PyInt 0))
       = Return (ProductOut.price p)
    /\ field_or items (py "category") (PyStr (py "craft"))
       = PyStr (ProductOut.category p)
    /\ ProductOut.id p = Some (py_str rt (field_or items (py "_id") PyNone)).
Proof.
  destruct d as [| | | | | | | |items|]; try discriminate.
  unfold product_out, get. cbn [bind]. intros H.
  apply bind_inv in H as (f & Hf & H).
  apply bind_inv in H as (title & Ht & H).
  apply bind_inv in H as (descr & _ & H).
  apply bind_inv in H as (price & Hp & H).
  apply bind_inv in H as (cat & Hc & H).
  apply bind_inv in H as (img & _ & H).
  apply bind_inv in H as (created & _ & H).
  injection H as <-. cbn.
  apply float_ge0_inv in Hp as ->. apply string_inv in Ht, Hc.
  exists items. auto.
Qed.

Lemma product_out_surfaced d p :
  product_out rt d = Return p -> surfaced rt d p.
Proof.
  intros H. apply product_out_inv in H as (items & -> & _ & Hp & Hc & _).
  exists items. unfold field_or in *. split_conj; [reflexivity| | |].
  - intros E. rewrite E in Hc. now injection Hc as <-.
  - intros E. rewrite E in Hp. cbn in Hp. now injection Hp as <-.
  - intros v E. now rewrite E in Hp.
Qed.

(** A price that [float] rejects stops the mapping of its document. *)
Lemma product_out_bad_price items v :
  lookup (py "price") items = Some v ->
  raises (py_float rt v) = true ->
  raises (product_out rt (PyDict items)) = true.
Proof.
  intros E Hv. unfold product_out, get, field_or. cbn [bind]. rewrite E.
  destruct (py_float rt v); [discriminate|]. reflexivity.
Qed.

(** A document without a title cannot be built into a product. *)
Lemma product_out_no_title items :
  lookup (py "title") items = None ->
  raises (product_out rt (PyDict items)) = true.
Proof.
  intros E. unfold product_out, get. cbn [bind].
  destruct (py_float rt _); [|reflexivity]. cbn [bind].
  unfold field_or at 1. rewrite E. reflexivity.
Qed.

Lemma raises_inv {E A} (r : result E A) :
  raises r = true -> exists e, r = Raise e.
Proof. destruct r; [discriminate|eauto]. Qed.

End CatalogFacts.

(** ** Claims about the catalog *)

(** C2. Whatever the store does (the import raises, the query raises, the
    returned value cannot be walked or a document cannot be mapped),
    listing returns a sequence and raises nothing; when the store raises
    it returns the empty sequence. *)
Theorem list_products_degrades (rt : Runtime) (env : environment) :
  (exists out, list_products rt env = Return out)
  /\ (forall e, env = Raise e -> list_products rt env = Return [])
  /\ (forall db e,
        env = Return db ->
        get_documents db (py "product") (PyDict []) = Raise e ->
        list_products rt env = Return [])
  /\ (forall e, list_products_try rt env = Raise e ->
                list_products rt env = Return []).
Proof.
  split_conj.
  - rewrite list_products_of_try. destruct (list_products_try rt env); eauto.
  - intros e ->. reflexivity.
  - intros db e -> H. unfold list_products, list_products_try.
    cbn [bind]. rewrite H. reflexivity.
  - intros e H. rewrite list_products_of_try, H. reflexivity.
Qed.

Lemma list_products_degrades_witness :
  list_products ascii_runtime
    (store_raising (Exn "ServerSelectionTimeoutError" (py "no route to host")))
  = Return []
  /\ list_products ascii_runtime
       (Raise (Exn "ModuleNotFoundError" (py "No module named 'database'")))
     = Return [].
Proof.
  split.
  - destruct (list_products_degrades ascii_runtime
                (store_raising
                   (Exn "ServerSelectionTimeoutError" (py "no route to host"))))
      as (_ & _ & H & _).
    eapply H; reflexivity.
  - destruct (list_products_degrades ascii_runtime
                (Raise (Exn "ModuleNotFoundError"
                          (py "No module named 'database'"))))
      as (_ & H & _).
    eapply H; reflexivity.
Defined.

(** C3. When the import or the store's create raises, creating a product
    raises a server error (status 500) and returns no identifier; when
    the store's create succeeds, the identifier it assigned is
    returned. *)
Theorem create_product_outcomes (env : environment) (product : ProductIn.t) :
  (forall db e,
     env = Return db ->
     create_document db (py "product") (model_dump product) = Raise e ->
     create_product env product
     = Raise (HTTPException.make 500
                (py "Database not available: " ++ exn_str e)))
  /\ (forall e,
        env = Raise e ->
        create_product env product
        = Raise (HTTPException.make 500
                   (py "Database not available: " ++ exn_str e)))
  /\ (forall db new_id,
        env = Return db ->
        create_document db (py "product") (model_dump product)
        = Return new_id ->
        create_product env product = Return new_id).
Proof.
  unfold create_product, create_product_try. split_conj.
  - intros db e -> H. cbn [bind]. rewrite H. reflexivity.
  - intros e ->. reflexivity.
  - intros db new_id -> H. cbn [bind]. rewrite H. reflexivity.
Qed.

Lemma create_product_outcomes_witness :
  create_product (store_raising (Exn "WriteError" (py "disk full"))) a_product
  = Raise (HTTPException.make 500
             (py "Database not available: " ++ py "disk full"))
  /\ create_product (store_with (PyList [])) a_product
     = Return (py "65f1c0ffee0000000000beef").
Proof.
  split.
  - destruct (create_product_outcomes
                (store_raising (Exn "WriteError" (py "disk full"))) a_product)
      as (H & _).
    exact (H _ (Exn "WriteError" (py "disk full")) eq_refl eq_refl).
  - destruct (create_product_outcomes (store_with (PyList [])) a_product)
      as (_ & _ & H).
    exact (H _ _ eq_refl eq_refl).
Defined.

(** C6, as stated, fails: a stored price that is not a number is not
    surfaced as 0; the document is not surfaced at all, and neither is
    any other document of the result. *)
Lemma non_numeric_price_is_not_zero :
  get_documents_of (store_with (PyList [pot; vase])) = Return (PyList [pot; vase])
  /\ raises (py_float ascii_runtime (PyStr (py "twelve"))) = true
  /\ list_products ascii_runtime (store_with (PyList [pot; vase])) = Return [].
Proof. evaluate. Qed.

(** C6, amended. When every document of the result can be mapped, each
    surfaced product has category "craft" if its document has no category
    field, price [0.0] if its document has no price field, and otherwise
    the price [float] makes of the stored one (the text "12" gives
    [12.0]).  A stored price that [float] rejects is not replaced by 0:
    the listing is then empty. *)
Theorem list_products_defaults (rt : Runtime) (env : environment) :
  (forall out,
     list_products_try rt env = Return out ->
     list_products rt env = Return out
     /\ exists db docs items,
          env = Return db
          /\ get_documents db (py "product") (PyDict []) = Return docs
          /\ iterate docs = Return (items, None)
          /\ Forall2 (surfaced rt) items out)
  /\ (forall db docs items fail d fields v,
        env = Return db ->
        get_documents db (py "product") (PyDict []) = Return docs ->
        iterate docs = Return (items, fail) ->
        In d items -> d = PyDict fields ->
        lookup (py "price") fields = Some v ->
        raises (py_float rt v) = true ->
        list_products rt env = Return [])
  /\ py_float rt (PyStr (py "12")) = Return 12%float
  /\ py_float rt (PyInt 0) = Return zero.
Proof.
  split_conj; [| | vm_compute; reflexivity | vm_compute; reflexivity].
  - intros out H. split.
    { rewrite list_products_of_try, H. reflexivity. }
    apply list_products_try_inv in H as (db & docs & items & fail & H).
    destruct H as (-> & Hd & Hi & H).
    apply collect_returns in H as (-> & ps & -> & Hps).
    exists db, docs, items. split_conj; try assumption; try reflexivity.
    cbn [app]. clear Hi.
    induction Hps as [|d p items ps Hp _ IH]; constructor; [|exact IH].
    now apply product_out_surfaced.
  - intros db docs items fail d fields v -> Hd Hi Hin -> Hv Hr.
    rewrite list_products_of_try,
      (list_products_try_store rt db docs items fail Hd Hi).
    pose proof (product_out_bad_price rt fields v Hv Hr) as Hbad.
    apply raises_inv in Hbad as [e He].
    destruct (collect_raises rt items fail [] _ e Hin He) as [e' ->].
    reflexivity.
Qed.

Lemma list_products_defaults_witness :
  list_products ascii_runtime (store_with (PyList [mug; pot]))
  = Return
      [ProductOut.make (py "Mug") None 12%float (py "craft") None
         (Some (py "65f1c0ffee0000000000beef")) None;
       ProductOut.make (py "Pot") None zero (py "clay") None
         (Some (py "None")) None]
  /\ exists db docs items,
       store_with (PyList [mug; pot]) = Return db
       /\ get_documents db (py "product") (PyDict []) = Return docs
       /\ iterate docs = Return (items, None)
       /\ Forall2 (surfaced ascii_runtime) items
            [ProductOut.make (py "Mug") None 12%float (py "craft") None
               (Some (py "65f1c0ffee0000000000beef")) None;
             ProductOut.make (py "Pot") None zero (py "clay") None
               (Some (py "None")) None].
Proof.
  apply (proj1 (list_products_defaults ascii_runtime
                  (store_with (PyList [mug; pot])))).
  vm_compute. reflexivity.
Defined.

(** C7 does not hold of [create_product]: the detail of the server error
    carries the whole message of the store's exception, here 200
    characters after the 24 of the fixed text, while the diagnostic probe
    keeps 80 characters of the same message. *)
Theorem create_product_detail_untruncated :
  let e := Exn "ServerSelectionTimeoutError" (repeat 120 200) in
  exists detail,
    create_product (store_raising e) a_product
    = Raise (HTTPException.make 500 detail)
    /\ detail = py "Database not available: " ++ exn_str e
    /\ length detail = 224%nat
    /\ length (probe_error_text e) = 89%nat.
Proof.
  cbv zeta. eexists. split; [reflexivity|]. evaluate.
Qed.

(** C10. The mapping is all or nothing: one document that cannot be
    mapped (its price is rejected by [float], or it has no title) makes
    the listing empty, whatever the other documents are. *)
Theorem list_products_all_or_nothing (rt : Runtime) (env : environment) :
  (forall db docs items fail d e,
     env = Return db ->
     get_documents db (py "product") (PyDict []) = Return docs ->
     iterate docs = Return (items, fail) ->
     In d items -> product_out rt d = Raise e ->
     list_products rt env = Return [])
  /\ (forall fields v,
        lookup (py "price") fields = Some v ->
        raises (py_float rt v) = true ->
        raises (product_out rt (PyDict fields)) = true)
  /\ (forall fields,
        lookup (py "title") fields = None ->
        raises (product_out rt (PyDict fields)) = true).
Proof.
  split_conj.
  - intros db docs items fail d e -> Hd Hi Hin He.
    rewrite list_products_of_try,
      (list_products_try_store rt db docs items fail Hd Hi).
    destruct (collect_raises rt items fail [] d e Hin He) as [e' ->].
    reflexivity.
  - apply product_out_bad_price.
  - apply product_out_no_title.
Qed.

Lemma list_products_all_or_nothing_witness :
  list_products ascii_runtime (store_with (PyList [mug; untitled; pot]))
  = Return []
  /\ list_products ascii_runtime (store_with (PyList [mug; pot; vase]))
     = Return [].
Proof.
  split.
  - destruct (list_products_all_or_nothing ascii_runtime
                (store_with (PyList [mug; untitled; pot]))) as (H & _ & Ht).
    destruct (raises_inv _ (Ht [(py "price", PyInt 3);
                                (py "category", PyStr (py "clay"))] eq_refl))
      as [e He].
    refine (H _ _ _ None untitled e eq_refl eq_refl eq_refl _ He).
    right. left. reflexivity.
  - destruct (list_products_all_or_nothing ascii_runtime
                (store_with (PyList [mug; pot; vase]))) as (H & Hp & _).
    destruct (raises_inv _ (Hp [(py "title", PyStr (py "Vase"));
                                (py "price", PyStr (py "twelve"));
                                (py "category", PyStr (py "clay"))]
                              (PyStr (py "twelve")) eq_refl eq_refl))
      as [e He].
    refine (H _ _ _ None vase e eq_refl eq_refl eq_refl _ He).
    right. right. left. reflexivity.
Defined.

(** * Further properties of the generator *)

Lemma encode_char_not_scalar c :
  Utf8.is_scalar c = false -> Utf8.encode_char c = None.
Proof.
  unfold Utf8.is_scalar, Utf8.encode_char, Utf8.is_surrogate. intros H.
  apply andb_false_iff in H as [H|H].
  - apply N.ltb_ge in H. now decide_tests.
  - apply negb_false_iff, andb_true_iff in H as [H1 H2].
    apply N.leb_le in H1. apply N.ltb_lt in H2.
    decide_tests. reflexivity.
Qed.

(** [encode] raises on a string that holds a lone surrogate. *)
Lemma encode_raises s :
  encodable s = false ->
  Utf8.encode s
  = Raise (Exn "UnicodeEncodeError" (py "surrogates not allowed")).
Proof.
  induction s as [|c s IH]; [discriminate|].
  cbn [encodable forallb Utf8.encode]. intros H.
  destruct (Utf8.is_scalar c) eqn:Hc.
  - destruct (encode_char_scalar c Hc) as [bs ->].
    rewrite IH by exact H. reflexivity.
  - now rewrite encode_char_not_scalar.
Qed.

(** X1. The generator returns an image exactly when the text it hashes,
    prompt, style and aspect joined, holds no lone surrogate; otherwise
    the first [encode] raises [UnicodeEncodeError] and nothing is
    generated. *)
Theorem svg_placeholder_succeeds_iff (p s a : str) :
  ((exists image, _svg_placeholder p s a = Return image)
   <-> encodable (p ++ s ++ a) = true)
  /\ (encodable (p ++ s ++ a) = false ->
      exists msg,
        _svg_placeholder p s a = Raise (Exn "UnicodeEncodeError" msg)).
Proof.
  assert (encodable (p ++ s ++ a) = false ->
          exists msg,
            _svg_placeholder p s a = Raise (Exn "UnicodeEncodeError" msg))
    as Hfail.
  { intros H. rewrite svg_placeholder_eq, (encode_raises _ H). cbn [bind].
    eauto. }
  split; [split|exact Hfail].
  - intros [image H]. destruct (encodable (p ++ s ++ a)) eqn:E; [reflexivity|].
    destruct (Hfail eq_refl) as [msg Hm]. congruence.
  - intros H. rewrite !encodable_app in H.
    apply andb_true_iff in H as [Hp H]. apply andb_true_iff in H as [Hs Ha].
    destruct (svg_placeholder_returns p s a Hp Hs Ha) as (b & sb & _ & _ & H).
    eauto.
Qed.

Lemma svg_placeholder_succeeds_iff_witness :
  exists msg,
    _svg_placeholder (py "moon") [0xD83C] (py "1:1")
    = Raise (Exn "UnicodeEncodeError" msg).
Proof.
  apply (proj2 (svg_placeholder_succeeds_iff (py "moon") [0xD83C] (py "1:1"))).
  reflexivity.
Defined.

(** The second text element carries the style, whole. *)
Lemma composed_svg_style p s a seed :
  contains (lit "style: " ++ s ++ lit "</text>") (composed_svg p s a seed).
Proof.
  unfold composed_svg, stop_colors, svg_markup.
  destruct (canvas a) as [w h].
  change (lit "      <text x='50%' y='55%' text-anchor='middle' opacity='0.7'>style: ")
    with (lit "      <text x='50%' y='55%' text-anchor='middle' opacity='0.7'>"
          ++ lit "style: ").
  rewrite <- !app_assoc.
  find_needle.
Qed.

Lemma svg_placeholder_decodes p s a :
  encodable p = true -> encodable s = true -> encodable a = true ->
  exists image b,
    _svg_placeholder p s a = Return image
    /\ Utf8.encode (p ++ s ++ a) = Return b
    /\ decodes_to image (composed_svg p s a (Sha256.hexdigest b)).
Proof.
  intros Hp Hs Ha.
  destruct (svg_placeholder_returns p s a Hp Hs Ha) as (b & sb & Hb & Hsb & H).
  exists (data_uri_prefix ++ Base64.b64encode sb), b.
  split_conj; try assumption.
  exists (Base64.b64encode sb), sb.
  split_conj; try assumption; try reflexivity.
  - apply b64decode_b64encode. eapply encode_bytes. exact Hsb.
  - now apply decode_encode.
Qed.

(** X2. The response echoes the prompt whole (the cut at 80 characters
    touches only the rendering) and the effective style, which is "dreamy"
    when the request has no style or an empty one; the markup shows that
    style after the text [style: ], uncut, and the provider is
    "placeholder". *)
Theorem generate_art_echo (req : ArtRequest.t) :
  encodable (ArtRequest.prompt req) = true ->
  encodable (or_default (ArtRequest.style req) (py "dreamy")) = true ->
  encodable (or_default (ArtRequest.aspect req) (py "1:1")) = true ->
  exists image svg,
    generate_art req
    = Return (ArtResponse.make image (ArtRequest.prompt req)
                (or_default (ArtRequest.style req) (py "dreamy"))
                (py "placeholder"))
    /\ decodes_to image svg
    /\ contains (lit "style: "
                 ++ or_default (ArtRequest.style req) (py "dreamy")
                 ++ lit "</text>") svg
    /\ (ArtRequest.style req = None \/ ArtRequest.style req = Some [] ->
        or_default (ArtRequest.style req) (py "dreamy") = py "dreamy").
Proof.
  intros Hp Hs Ha.
  destruct (svg_placeholder_decodes _ _ _ Hp Hs Ha) as (image & b & H & _ & Hd).
  exists image,
    (composed_svg (ArtRequest.prompt req)
       (or_default (ArtRequest.style req) (py "dreamy"))
       (or_default (ArtRequest.aspect req) (py "1:1")) (Sha256.hexdigest b)).
  split_conj.
  - rewrite generate_art_eq, H. reflexivity.
  - exact Hd.
  - apply composed_svg_style.
  - intros [-> | ->]; reflexivity.
Qed.

Lemma generate_art_echo_witness :
  exists image svg,
    generate_art (ArtRequest.make (repeat 97 100) (Some []) None)
    = Return (ArtResponse.make image (repeat 97 100) (py "dreamy")
                (py "placeholder"))
    /\ decodes_to image svg
    /\ contains (lit "style: " ++ py "dreamy" ++ lit "</text>") svg.
Proof.
  destruct (generate_art_echo
              (ArtRequest.make (repeat 97 100) (Some []) None)
              eq_refl eq_refl eq_refl) as (image & svg & H1 & H2 & H3 & _).
  exists image, svg. exact (conj H1 (conj H2 H3)).
Defined.

Lemma length_b64encode bs :
  length (Base64.b64encode bs) = (4 * ((length bs + 2) / 3))%nat.
Proof.
  induction bs as [|a|a b|a b c r IH] using list_ind3;
    cbn [Base64.b64encode length]; try reflexivity.
  rewrite IH.
  replace (S (S (S (length r))) + 2)%nat with (length r + 2 + 1 * 3)%nat
    by lia.
  rewrite Nat.div_add by discriminate. lia.
Qed.

(** X3. Whatever the prompt holds, the image is plain ASCII: the 26
    characters of the prefix followed by four base64 characters for
    every three bytes (or final one or two) of the UTF-8 markup. *)
Theorem image_is_ascii (p s a : str) :
  encodable p = true -> encodable s = true -> encodable a = true ->
  exists image svg sb,
    _svg_placeholder p s a = Return image
    /\ decodes_to image svg
    /\ Utf8.encode svg = Return sb
    /\ forallb (fun c => c <? 0x80) image = true
    /\ length image = (26 + 4 * ((length sb + 2) / 3))%nat.
Proof.
  intros Hp Hs Ha.
  destruct (svg_placeholder_decodes p s a Hp Hs Ha) as (image & b & H & _ & Hd).
  pose proof Hd as (payload & sb & -> & -> & Hsb & _).
  exists (data_uri_prefix ++ Base64.b64encode sb),
    (composed_svg p s a (Sha256.hexdigest b)), sb.
  split_conj; try assumption.
  - rewrite forallb_app, b64encode_ascii. reflexivity.
  - rewrite length_app, length_b64encode. reflexivity.
Qed.

Lemma image_is_ascii_witness :
  exists image svg sb,
    _svg_placeholder [0x6708; 0x306E; 0x68EE] (py "ink") (py "3:4")
    = Return image
    /\ decodes_to image svg
    /\ Utf8.encode svg = Return sb
    /\ forallb (fun c => c <? 0x80) image = true
    /\ length image = (26 + 4 * ((length sb + 2) / 3))%nat.
Proof.
  apply (image_is_ascii [0x6708; 0x306E; 0x68EE] (py "ink") (py "3:4"));
    reflexivity.
Defined.




Ltac literal_lengths :=
  repeat match goal with
  | |- context [length (lit ?x)] =>
      let n := eval vm_compute in (length (lit x)) in
      change (length (lit x)) with n
  | |- context [length (py ?x)] =>
      let n := eval vm_compute in (length (py x)) in
      change (length (py x)) with n
  | |- context [length (str_of_int ?z)] =>
      let n := eval vm_compute in (length (str_of_int z)) in
      change (length (str_of_int z)) with n
  end.

Lemma length_window i digest : length (window i digest) = 6%nat.
Proof. unfold window. now rewrite length_map, length_seq. Qed.

(** Length of the composed markup for a seed of sixty-four digits. *)
Lemma length_composed_svg p s a seed :
  length seed = 64%nat ->
  length (composed_svg p s a seed)
  = ((if str_in a [py "16:9"; py "16-9"; py "3:4"; py "3-4"]
      then 925 else 926)
     + Nat.min 80 (length p) + length s)%nat.
Proof.
  intros Hseed. unfold composed_svg.
  rewrite (stop_colors_windows _ Hseed).
  unfold canvas, str_in. cbn [existsb].
  destruct (str_eqb a (py "16:9")); [|destruct (str_eqb a (py "16-9"))];
    [| |destruct (str_eqb a (py "3:4")); [|destruct (str_eqb a (py "3-4"))]];
    cbn [orb]; unfold svg_markup, slice_to, nl;
    rewrite !length_app, !length_window, length_firstn;
    literal_lengths; cbn [length]; lia.
Qed.

(** X5. The prompt adds at most 80 characters to the markup: its length
    is 925 (926 for the square canvas, whose size has one more digit)
    plus the smaller of 80 and the length of the prompt plus the length
    of the style, which is not cut. *)
Theorem markup_length (p s a : str) :
  encodable p = true -> encodable s = true -> encodable a = true ->
  exists image svg,
    _svg_placeholder p s a = Return image
    /\ decodes_to image svg
    /\ length svg
       = ((if str_in a [py "16:9"; py "16-9"; py "3:4"; py "3-4"]
           then 925 else 926)
          + Nat.min 80 (length p) + length s)%nat
    /\ (length svg <= 1006 + length s)%nat.
Proof.
  intros Hp Hs Ha.
  destruct (svg_placeholder_decodes p s a Hp Hs Ha) as (image & b & H & _ & Hd).
  exists image, (composed_svg p s a (Sha256.hexdigest b)).
  pose proof (length_composed_svg p s a _ (length_hexdigest b)) as Hlen.
  split_conj; try assumption.
  rewrite Hlen. destruct (str_in a _); lia.
Qed.

Lemma markup_length_witness :
  exists image svg,
    _svg_placeholder (repeat 97 500) (py "clay") (py "3:4") = Return image
    /\ decodes_to image svg
    /\ length svg = 1009%nat.
Proof.
  destruct (markup_length (repeat 97 500) (py "clay") (py "3:4")
              eq_refl eq_refl eq_refl) as (image & svg & H1 & H2 & H3 & _).
  exists image, svg. exact (conj H1 (conj H2 H3)).
Defined.

(** * Further properties of the catalog *)

Section CatalogMore.

Variable rt : Runtime.




(** One document whose mapping raises empties the listing. *)
Lemma list_products_unmappable db docs items fail d :
  get_documents db (py "product") (PyDict []) = Return docs ->
  iterate docs = Return (items, fail) ->
  In d items -> raises (product_out rt d) = true ->
  list_products rt (Return db) = Return [].
Proof.
  intros Hd Hi Hin Hr. apply raises_inv in Hr as [e He].
  rewrite list_products_of_try,
    (list_products_try_store rt db docs items fail Hd Hi).
  destruct (collect_raises rt items fail [] d e Hin He) as [e' ->].
  reflexivity.
Qed.

(** A cursor that ends by raising makes the loop raise, whatever it
    yielded before. *)
Lemma collect_failing_cursor items e acc :
  exists e', collect rt items (Some e) acc = Raise e'.
Proof.
  revert acc. induction items as [|d items IH]; intros acc; cbn [collect].
  - eauto.
  - destruct (product_out rt d) as [p|e0]; cbn [bind]; eauto.
Qed.

Lemma product_out_negative_price fields v f :
  lookup (py "price") fields = Some v ->
  py_float rt v = Return f ->
  PrimFloat.ltb f zero = true ->
  raises (product_out rt (PyDict fields)) = true.
Proof.
  intros E Hf Hneg. unfold product_out, get, field_or. cbn [bind].
  rewrite E, Hf. cbn [bind].
  destruct (Pydantic.string _); [|reflexivity]. cbn [bind].
  destruct (Pydantic.optional_string _); [|reflexivity]. cbn [bind].
  unfold Pydantic.float_ge0. rewrite Hneg. reflexivity.
Qed.


End CatalogMore.



(** X7. A cursor that raises while it is walked empties the listing,
    however many well-formed documents it yielded first. *)
Theorem failing_cursor_empties (rt : Runtime) (db : database)
  (docs : pyvalue) (items : list pyvalue) (e : exn) :
  get_documents db (py "product") (PyDict []) = Return docs ->
  iterate docs = Return (items, Some e) ->
  list_products rt (Return db) = Return [].
Proof.
  intros Hd Hi.
  rewrite list_products_of_try,
    (list_products_try_store rt db docs items (Some e) Hd Hi).
  destruct (collect_failing_cursor rt items e []) as [e' ->]. reflexivity.
Qed.

Lemma failing_cursor_empties_witness :
  list_products ascii_runtime (store_with closing_cursor) = Return [].
Proof.
  apply (failing_cursor_empties ascii_runtime (db_with closing_cursor)
           closing_cursor [mug; pot]
           (Exn "AutoReconnect" (py "connection closed")));
    reflexivity.
Defined.

(** X8. The bound [ge=0] that [ProductOut] inherits is enforced on read:
    one stored price below zero empties the listing. *)
Theorem negative_price_empties (rt : Runtime) (db : database)
  (docs : pyvalue) (items : list pyvalue) (fail : option exn)
  (fields : list (str * pyvalue)) (v : pyvalue) (f : float) :
  get_documents db (py "product") (PyDict []) = Return docs ->
  iterate docs = Return (items, fail) ->
  In (PyDict fields) items ->
  lookup (py "price") fields = Some v ->
  py_float rt v = Return f ->
  PrimFloat.ltb f zero = true ->
  list_products rt (Return db) = Return [].
Proof.
  intros Hd Hi Hin Hv Hf Hneg.
  eapply list_products_unmappable; eauto.
  eapply product_out_negative_price; eauto.
Qed.

Lemma negative_price_empties_witness :
  list_products ascii_runtime (store_with (PyList [mug; jug_below_zero]))
  = Return [].
Proof.
  apply (negative_price_empties ascii_runtime
           (db_with (PyList [mug; jug_below_zero]))
           (PyList [mug; jug_below_zero]) [mug; jug_below_zero] None
           [(py "title", PyStr (py "Jug")); (py "price", PyInt (-1));
            (py "category", PyStr (py "clay"))]
           (PyInt (-1)) (-1)%float);
    try reflexivity.
  right. left. reflexivity.
Defined.






(** * Properties of the diagnostic probe *)

Ltac probe_cases import_db :=
  unfold test_database;
  let db := fresh "db" in
  let e := fresh "e" in
  let names := fresh "names" in
  destruct import_db as [[db|]|e];
    [destruct (list_collection_names db) as [names|e] eqn:?Hnames| | ];
  cbn [Probe.set_database Probe.set_database_url Probe.set_database_name
       Probe.set_connection_status Probe.set_collections
       Probe.backend Probe.database Probe.database_url Probe.database_name
       Probe.connection_status Probe.collections].

(** X11. The probe reports at most ten collections: the first ten names
    in the order the store lists them when the listing succeeds, none
    when there is no store or the listing raises. *)
Theorem probe_collections (import_db : result exn (option db_handle))
  (getenv : str -> option str) :
  (length (Probe.collections (test_database import_db getenv)) <= 10)%nat
  /\ (forall db names,
        import_db = Return (Some db) ->
        list_collection_names db = Return names ->
        Probe.collections (test_database import_db getenv)
        = slice_to 10 names)
  /\ ((forall db names,
         import_db = Return (Some db) ->
         list_collection_names db <> Return names) ->
      Probe.collections (test_database import_db getenv) = []).
Proof.
  split_conj.
  - probe_cases import_db; cbn [length]; try lia. apply firstn_le_length.
  - intros db names -> Hn. unfold test_database. rewrite Hn. reflexivity.
  - intros H. probe_cases import_db; try reflexivity.
    now destruct (H db names eq_refl).
Qed.

Lemma probe_collections_witness :
  Probe.collections
    (test_database (Return (Some busy_handle)) (fun _ => None))
  = map (fun c => [c]) (py "abcdefghij").
Proof.
  exact (proj1 (proj2 (probe_collections (Return (Some busy_handle))
                         (fun _ => None)))
           busy_handle (map (fun c => [c]) (py "abcdefghijklmno"))
           eq_refl eq_refl).
Defined.

(** X12. The status text of the store is short whatever went wrong: a
    failed import shows the cross and at most 80 characters of the
    exception's text, a failed listing the warning sign and at most 80
    characters, so the text never exceeds 104 characters. *)
Theorem probe_status_text (import_db : result exn (option db_handle))
  (getenv : str -> option str) :
  (length (Probe.database (test_database import_db getenv)) <= 104)%nat
  /\ (forall e,
        import_db = Raise e ->
        Probe.database (test_database import_db getenv)
        = cross_mark ++ py " Error: " ++ slice_to 80 (exn_str e))
  /\ (forall db e,
        import_db = Return (Some db) ->
        list_collection_names db = Raise e ->
        Probe.database (test_database import_db getenv)
        = warning_sign ++ py " Connected but Error: "
          ++ slice_to 80 (exn_str e)).
Proof.
  split_conj.
  - probe_cases import_db;
      unfold probe_error_text, slice_to, check_mark, cross_mark, warning_sign;
      rewrite ?length_app, ?length_firstn; literal_lengths; cbn [length];
      lia.
  - intros e ->. reflexivity.
  - intros db e -> Hn. unfold test_database. rewrite Hn. reflexivity.
Qed.

Lemma probe_status_text_witness :
  Probe.database
    (test_database (Raise (Exn "ModuleNotFoundError" (repeat 120 300)))
       (fun _ => None))
  = cross_mark ++ py " Error: " ++ repeat 120 80.
Proof.
  apply (proj1 (proj2 (probe_status_text
           (Raise (Exn "ModuleNotFoundError" (repeat 120 300)))
           (fun _ => None)))
           (Exn "ModuleNotFoundError" (repeat 120 300)));
    reflexivity.
Defined.

(** X13. The two configuration fields say only whether the variables
    [DATABASE_URL] and [DATABASE_NAME] are set to a non-empty value; they
    never show the values, and they are the same whatever the import
    found, so the name of the [db] object written at line 75 is never
    reported. *)
Theorem probe_configuration (import_db : result exn (option db_handle))
  (getenv : str -> option str) :
  Probe.database_url (test_database import_db getenv)
  = Some (if is_set (getenv (py "DATABASE_URL"))
          then check_mark ++ py " Set" else cross_mark ++ py " Not Set")
  /\ Probe.database_name (test_database import_db getenv)
     = Some (if is_set (getenv (py "DATABASE_NAME"))
             then check_mark ++ py " Set" else cross_mark ++ py " Not Set")
  /\ (forall other,
        Probe.database_url (test_database other getenv)
        = Probe.database_url (test_database import_db getenv)
        /\ Probe.database_name (test_database other getenv)
           = Probe.database_name (test_database import_db getenv)).
Proof.
  assert (forall imp,
            Probe.database_url (test_database imp getenv)
            = Some (set_text (getenv (py "DATABASE_URL")))
            /\ Probe.database_name (test_database imp getenv)
               = Some (set_text (getenv (py "DATABASE_NAME")))) as H.
  { intros imp. probe_cases imp; split; reflexivity. }
  split; [apply H|]. split; [apply H|].
  intros other. destruct (H other) as [-> ->].
  destruct (H import_db) as [-> ->]. split; reflexivity.
Qed.

(** X14. The probe says "Connected" exactly when the import gave a [db]
    object, also when listing its collections then raises; with no such
    object it says "Not Connected", and the backend is reported running
    in every case. *)
Theorem probe_connection (import_db : result exn (option db_handle))
  (getenv : str -> option str) :
  (Probe.connection_status (test_database import_db getenv) = py "Connected"
   <-> exists db, import_db = Return (Some db))
  /\ ((forall db, import_db <> Return (Some db)) ->
      Probe.connection_status (test_database import_db getenv)
      = py "Not Connected")
  /\ (import_db = Return None ->
      Probe.database (test_database import_db getenv)
      = cross_mark ++ py " Not Available")
  /\ Probe.backend (test_database import_db getenv)
     = check_mark ++ py " Running".
Proof.
  split_conj.
  - split.
    + probe_cases import_db; intros H; try discriminate H; eauto.
    + intros [db ->]. unfold test_database.
      destruct (list_collection_names db); reflexivity.
  - intros H. probe_cases import_db; try reflexivity;
      now destruct (H db eq_refl).
  - intros ->. reflexivity.
  - probe_cases import_db; reflexivity.
Qed.

Lemma probe_connection_witness :
  Probe.connection_status
    (test_database
       (Return (Some (mkHandle None
                        (Raise (Exn "OperationFailure"
                                  (py "not authorized"))))))
       (fun _ => None))
  = py "Connected".
Proof.
  apply (proj1 (probe_connection
           (Return (Some (mkHandle None
                            (Raise (Exn "OperationFailure"
                                      (py "not authorized"))))))
           (fun _ => None))).
  eexists. reflexivity.
Defined.

(** * Fields the listing does not read *)

Lemma str_eqb_neq a b : a <> b -> str_eqb a b = false.
Proof.
  intros H. destruct (str_eqb a b) eqn:E; [|reflexivity].
  now apply str_eqb_eq in E.
Qed.

Lemma field_or_other fields key k v default :
  key <> k ->
  field_or ((k, v) :: fields) key default = field_or fields key default.
Proof.
  intros H. unfold field_or. cbn [lookup]. now rewrite str_eqb_neq.
Qed.

(** X15. The listing reads seven keys of a document and nothing else: a
    stored field under any other key changes neither the product built
    from the document nor whether it can be built. *)
Theorem unknown_field_ignored (rt : Runtime) (fields : list (str * pyvalue))
  (k : str) (v : pyvalue) :
  ~ In k [py "_id"; py "title"; py "description"; py "price";
          py "category"; py "image"; py "created_at"] ->
  product_out rt (PyDict ((k, v) :: fields)) = product_out rt (PyDict fields).
Proof.
  intros H. cbn [In] in H. unfold product_out, get. cbn [bind].
  rewrite !field_or_other by (intros E; apply H; rewrite E; tauto).
  reflexivity.
Qed.

Lemma unknown_field_ignored_witness :
  product_out ascii_runtime
    (PyDict [(py "stock", PyInt 4); (py "title", PyStr (py "Pot"));
             (py "category", PyStr (py "clay"))])
  = product_out ascii_runtime pot.
Proof.
  apply (unknown_field_ignored ascii_runtime
           [(py "title", PyStr (py "Pot")); (py "category", PyStr (py "clay"))]
           (py "stock") (PyInt 4)).
  cbn [In]. intros H.
  repeat (destruct H as [H|H]; [discriminate H|]). exact H.
Defined.
